(** * Transaction preparation in [src/utils/base_token.ts]

    A shallow embedding of the class [BaseToken]: the option validator, the
    transaction-config builder [createTransactionConfig], the four public
    operations built on it ([processWrite], [sendTransaction],
    [readTransaction], [processRead]) and the contract lazy-loader
    [getContract].

    JavaScript objects are finite maps from property names to values.  The two
    chain-side default records and the memoised contract are the mutable state
    of a token object; a config returned by the builder is a reference into
    that state, because the builder returns the very object it merged into.
    Every call made on a collaborator (chain client, method handle, logger) is
    recorded, in order, in an event trace.

    Four conventions hold throughout.  A client or method record tells how
    the collaborator answers during one operation; a sequence of operations
    takes one record per operation.  A collaborator that returns a promise
    does return one: it fails by rejecting, not by throwing.  The promises of
    one [Promise.all] settle in the order they were issued, as they do with
    stubs that answer at once.  A build and the [then] callback chained on it
    run with no other work on the token in between; only [getContract()] is
    also given turn by turn, in [interleave]. *)

From stdpp Require Import gmap strings list fin_maps pretty.
From Stdlib Require Import ZArith Ascii DecimalString HexadecimalString.

Set Warnings "-register-all".
Open Scope Z_scope.

(** ** JavaScript values *)

(** Numbers are the integers and [NaN]: the model has no fractions and no
    infinities, and it keeps an integer exactly where a double rounds (beyond
    2^53).  [VFun] stands for any callable. *)
Inductive Value :=
| VUndefined
| VNull
| VBool (b : bool)
| VNum (n : Z)
| VNaN
| VStr (s : string)
| VFun
| VArr (items : list Value)
| VObj (props : gmap string Value).

Abbreviation Obj := (gmap string Value).

(** [typeof v] *)
Definition typeof (v : Value) : string :=
  match v with
  | VUndefined => "undefined"
  | VNull => "object"
  | VBool _ => "boolean"
  | VNum _ | VNaN => "number"
  | VStr _ => "string"
  | VFun => "function"
  | VArr _ | VObj _ => "object"
  end.

(** [Array.isArray(v)] *)
Definition Array_isArray (v : Value) : bool :=
  match v with VArr _ => true | _ => false end.

(** Truthiness: what [!v], [v ? a : b], [v || w] and [if (v)] test. *)
Definition truthy (v : Value) : bool :=
  match v with
  | VUndefined | VNull | VNaN => false
  | VBool b => b
  | VNum n => negb (n =? 0)
  | VStr s => negb (String.eqb s EmptyString)
  | VFun | VArr _ | VObj _ => true
  end.

(** [o.k] on an object: a missing property reads as [undefined]. *)
Definition get (k : string) (o : Obj) : Value := default VUndefined (o !! k).

(** [k in o] for own properties. *)
Definition has (k : string) (o : Obj) : bool := bool_decide (is_Some (o !! k)).

(** Hexadecimal digits in lower case. *)
Fixpoint lowerHex (s : string) : string :=
  match s with
  | EmptyString => EmptyString
  | String c s' =>
      String (match c with
              | "A" => "a" | "B" => "b" | "C" => "c"
              | "D" => "d" | "E" => "e" | "F" => "f"
              | _ => c
              end)%char (lowerHex s')
  end.

(** Numeric value of a string, for the numerals the model reads: the empty
    string is 0, a string of decimal digits and a [0x] hexadecimal numeral
    are their values.  Every other string is given [NaN]; that is
    JavaScript's answer for a string that is no numeral, not for the signed,
    fractional, exponent, binary, octal, blank-padded and [Infinity] forms,
    which the model does not read. *)
Definition Number_of_string (s : string) : Value :=
  match DecimalString.NilEmpty.uint_of_string s with
  | Some d => VNum (Z.of_uint d)
  | None =>
      match s with
      | String "0" (String x h) =>
          if bool_decide (x = "x"%char ∨ x = "X"%char) then
            match h, HexadecimalString.NilEmpty.uint_of_string (lowerHex h) with
            | String _ _, Some u => VNum (Z.of_hex_uint u)
            | _, _ => VNaN
            end
          else VNaN
      | _ => VNaN
      end
  end.

(** [Number(v)].  A one-element array converts through its element's string
    form; plain objects and callables give [NaN].  The result is
    JavaScript's where [safeInteger] below is defined; the theorems state the
    value of a coerced field only there. *)
Fixpoint Number (v : Value) : Value :=
  match v with
  | VUndefined => VNaN
  | VNull => VNum 0
  | VBool b => VNum (if b then 1 else 0)
  | VNum n => VNum n
  | VNaN => VNaN
  | VStr s => Number_of_string s
  | VFun => VNaN
  | VArr [] => VNum 0
  | VArr [x] =>
      match x with
      | VUndefined | VNull => VNum 0
      | VBool _ | VFun | VObj _ => VNaN
      | _ => Number x
      end
  | VArr _ => VNaN
  | VObj _ => VNaN
  end.

(** A value that is an integer number. *)
Definition isInteger (v : Value) : bool :=
  match v with VNum _ => true | _ => false end.

(** [Number.MAX_SAFE_INTEGER], 2^53 - 1: up to it, in magnitude, a double
    holds every integer. *)
Definition MAX_SAFE_INTEGER : Z := 9007199254740991.

(** The integer a value stands for, when it is a number or a string of
    decimal digits and the integer is within the safe range: there
    [Number(v)] is that integer, exactly. *)
Definition safeInteger (v : Value) : option Z :=
  match v with
  | VNum n =>
      if bool_decide (- MAX_SAFE_INTEGER ≤ n ≤ MAX_SAFE_INTEGER) then Some n else None
  | VStr s =>
      match DecimalString.NilEmpty.uint_of_string s with
      | Some d =>
          if bool_decide (Z.of_uint d ≤ MAX_SAFE_INTEGER) then Some (Z.of_uint d)
          else None
      | None => None
      end
  | _ => None
  end.

(** Own enumerable properties, as [Object.assign] reads them from a source:
    the properties of an object, the indexed elements of an array, the
    indexed characters of a string, nothing for the other primitives. *)
Definition indexed (l : list Value) : Obj :=
  list_to_map (imap (λ i v, (pretty i, v)) l).

Fixpoint chars (s : string) : list Value :=
  match s with
  | EmptyString => []
  | String c s' => VStr (String c EmptyString) :: chars s'
  end.

Definition ownProps (v : Value) : Obj :=
  match v with
  | VObj o => o
  | VArr l => indexed l
  | VStr s => indexed (chars s)
  | _ => ∅
  end.

(** [Object.assign(target, source)]: every own property of the source is
    written into the target; the target's other properties stay.  The result
    is the target object after the writes. *)
Definition Object_assign (target source : Obj) : Obj := source ∪ target.

(** Modelled from the spec: [merge] of [../utils] is not in [src/]; the spec
    has it return the config "augmented with" the extra fields, so it builds a
    new object holding the first argument's properties overwritten by the
    second's. *)
Definition merge (a b : Obj) : Obj := Object_assign (Object_assign ∅ a) b.

(** ** Collaborators *)

(** Settled state of a promise returned by a collaborator. *)
Inductive Response :=
| Resolves (v : Value)
| Rejects (reason : Value).

(** [BaseContract]: an instance has an identity and an address. *)
Record BaseContract := {
  contract_instance : nat;
  contract_address : Value
}.

(** [BaseContractMethod] *)
Record BaseContractMethod := {
  method_estimateGas : Obj → Response;
  method_encodeABI : Value;
  method_address : Value;
  method_read : Obj → Response;
  method_write : Obj → Value
}.

(** [BaseWeb3Client]: the chain client of one side. *)
Record BaseWeb3Client := {
  estimateGas : Obj → Response;
  getGasPrice : Response;
  getTransactionCount : Value → Value → Response;
  getChainId : Response;
  read : Obj → Response;
  write : Obj → Value;
  client_getContract : Value → Value → BaseContract
}.

(** [Web3SideChainClient] *)
Record Web3SideChainClient := {
  parent : BaseWeb3Client;
  child : BaseWeb3Client;
  isEIP1559Supported : bool → bool;
  getABI : Value → Value → Response
}.

(** [IContractInitParam] *)
Record IContractInitParam := {
  address : Value;
  isParent : bool;
  name : Value;
  bridgeType : Value
}.

(** ** Events, errors, state *)

(** Every call on a collaborator.  The boolean of a client call tells the side
    ([true] for the parent client). *)
Inductive Event :=
| Log (msg : string)
| IsEIP1559Supported (side : bool)
| EstimateGas (side : bool) (config : Obj)
| MethodEstimateGas (config : Obj)
| GetGasPrice (side : bool)
| GetTransactionCount (side : bool) (addr tag : Value)
| GetChainId (side : bool)
| ClientRead (side : bool) (config : Obj)
| ClientWrite (side : bool) (config : Obj)
| MethodEncodeABI
| MethodRead (config : Obj)
| MethodWrite (config : Obj)
| GetABI (name bridgeType : Value)
| GetContract (side : bool) (addr abi : Value).

Inductive Error :=
| TransactionOptionNotObject
| ChildNoEIP1559
| TypeError
| Upstream (reason : Value).

(** The two default-config objects of [this.client.config]; both are taken
    to exist and to be distinct objects. *)
Inductive ObjRef := ParentDefault | ChildDefault.

(** Mutable state reachable from a token object. *)
Record State := {
  parentDefaultConfig : Obj;
  childDefaultConfig : Obj;
  contract_ : option BaseContract
}.

Definition deref (r : ObjRef) (s : State) : Obj :=
  match r with
  | ParentDefault => parentDefaultConfig s
  | ChildDefault => childDefaultConfig s
  end.

Definition store (r : ObjRef) (o : Obj) (s : State) : State :=
  match r with
  | ParentDefault =>
      {| parentDefaultConfig := o;
         childDefaultConfig := childDefaultConfig s;
         contract_ := contract_ s |}
  | ChildDefault =>
      {| parentDefaultConfig := parentDefaultConfig s;
         childDefaultConfig := o;
         contract_ := contract_ s |}
  end.

(** ** The effect monad: state, trace, exception *)

Inductive Res (A : Type) :=
| Ok (a : A)
| Fail (e : Error).
Arguments Ok {A} a.
Arguments Fail {A} e.

Definition M (A : Type) : Type := State → Res A * State * list Event.

#[global] Instance M_ret : MRet M := λ A a s, (Ok a, s, []).

(** The events [t] happened before the run [x]. *)
Definition after {A} (t : list Event) (x : Res A * State * list Event) :
    Res A * State * list Event :=
  match x with (r, s, t') => (r, s, t ++ t') end.

#[global] Instance M_bind : MBind M := λ A B f m s,
  match m s with
  | (Ok a, s1, t1) => after t1 (f a s1)
  | (Fail e, s1, t1) => (Fail e, s1, t1)
  end.

Definition throw {A} (e : Error) : M A := λ s, (Fail e, s, []).
Definition emit (ev : Event) : M unit := λ s, (Ok tt, s, [ev]).
Definition load (r : ObjRef) : M Obj := λ s, (Ok (deref r s), s, []).
Definition save (r : ObjRef) (o : Obj) : M unit := λ s, (Ok tt, store r o s, []).
Definition readProp (r : ObjRef) (k : string) : M Value :=
  o ← load r; mret (get k o).
Definition writeProp (r : ObjRef) (k : string) (v : Value) : M unit :=
  o ← load r; save r (<[k := v]> o).
Definition getMemo : M (option BaseContract) := λ s, (Ok (contract_ s), s, []).
Definition setMemo (c : BaseContract) : M unit := λ s,
  (Ok tt,
   {| parentDefaultConfig := parentDefaultConfig s;
      childDefaultConfig := childDefaultConfig s;
      contract_ := Some c |}, []).

(** A call on a collaborator that returns a promise: the call is recorded and
    the promise is handed back. *)
Definition call (ev : Event) (r : Response) : M Response :=
  _ ← emit ev; mret r.

(** [await p] *)
Definition await (r : Response) : M Value :=
  match r with
  | Resolves v => mret v
  | Rejects reason => throw (Upstream reason)
  end.

(** [await Promise.all([p1, p2, p3, p4])] on promises that are already
    issued: the values in order, or the rejection of the first promise that
    rejected.  The promises settle in the order they were issued. *)
Definition await_all (p1 p2 p3 p4 : Response) : M (Value * Value * Value * Value) :=
  v1 ← await p1; v2 ← await p2; v3 ← await p3; v4 ← await p4;
  mret (v1, v2, v3, v4).

(** ** Results of the public operations *)

(** What a public operation's promise is fulfilled with. *)
Inductive Result :=
| RConfig (config : ObjRef)
| RMerged (config : Obj)
| RWrite (methodResult : Value)
| RValue (v : Value).

(** A call of a promise-returning function: it throws before returning, or
    returns a promise that is rejected or fulfilled. *)
Inductive Outcome (A : Type) :=
| Throws (e : Error)
| Rejected (e : Error)
| Fulfilled (a : A).
Arguments Throws {A} e.
Arguments Rejected {A} e.
Arguments Fulfilled {A} a.

Definition Op (A : Type) : Type := State → Outcome A * State * list Event.

(** The promise of an asynchronous body: fulfilled with its value or rejected
    with its exception. *)
Definition settled {A} (x : Res A * State * list Event) :
    Outcome A * State * list Event :=
  match x with
  | (Ok a, s, t) => (Fulfilled a, s, t)
  | (Fail e, s, t) => (Rejected e, s, t)
  end.

(** [sync] runs before the promise exists, so its exception is thrown to the
    caller; [async] is the body of an [async] function together with the
    [then] callbacks chained on it, so its exception rejects the promise. *)
Definition run {A} (sync : M unit) (async : M A) : Op A := λ s,
  match sync s with
  | (Fail e, s1, t1) => (Throws e, s1, t1)
  | (Ok _, s1, t1) => settled (after t1 (async s1))
  end.

(** A parameter with a default value: [undefined] takes the default. *)
Definition defaultTo (d arg : Value) : Value :=
  match arg with VUndefined => d | _ => arg end.

(** [v.k] on any value: reading a property of [null] or [undefined] raises a
    [TypeError]; the named properties of arrays and primitives read here are
    [undefined]. *)
Definition propOf (v : Value) (k : string) : M Value :=
  match v with
  | VUndefined | VNull => throw TypeError
  | VObj o => mret (get k o)
  | _ => mret VUndefined
  end.

(** ** The class [BaseToken] *)

Section BaseToken.

Variable contractParam : IContractInitParam.

(** [getClient(isParent)] *)
Definition getClient (client : Web3SideChainClient) (isParent : bool) : BaseWeb3Client :=
  if isParent then parent client else child client.

(** Modelled from the spec: [ErrorHelper] of [./error_helper] is not in
    [src/]; the spec has the error signal throw, so [throw()] raises the error
    the helper was built with. *)
Definition ErrorHelper_throw (e : Error) : M unit := throw e.

(** [validateTxOption_(option)] *)
Definition validateTxOption_ (option : Value) : M unit :=
  if negb (String.eqb (typeof option) "object") || Array_isArray option
  then ErrorHelper_throw TransactionOptionNotObject
  else mret tt.

(** The getters [parentDefaultConfig] and [childDefaultConfig] give the object
    held by the client configuration, not a copy. *)
Definition defaultConfigOf (isParent : bool) : ObjRef :=
  if isParent then ParentDefault else ChildDefault.

(** [createTransactionConfig({ txConfig, method, isParent, isWrite })].
    [Object.assign] writes into the default record and returns it, so from
    there on [txConfig] names that record. *)
Definition createTransactionConfig (client : Web3SideChainClient)
    (txConfig : Value) (method : option BaseContractMethod)
    (isParent isWrite : bool) : M ObjRef :=
  let defaultConfig := defaultConfigOf isParent in
  target ← load defaultConfig;
  save defaultConfig
    (Object_assign target
       (ownProps (if truthy txConfig then txConfig else VObj ∅)));;
  let txConfig := defaultConfig in
  emit (Log "txConfig");;
  let side := getClient client isParent in
  let estimateGas_ (config : Obj) : M Response :=
    match method with
    | Some m => call (MethodEstimateGas config) (method_estimateGas m config)
    | None => call (EstimateGas isParent config) (estimateGas side config)
    end in
  if isWrite then
    maxFeePerGas ← readProp txConfig "maxFeePerGas";
    maxPriorityFeePerGas ← readProp txConfig "maxPriorityFeePerGas";
    emit (IsEIP1559Supported isParent);;
    let supported := isEIP1559Supported client isParent in
    if negb isParent && supported
       && (truthy maxFeePerGas || truthy maxPriorityFeePerGas)
    then throw ChildNoEIP1559
    else
      gasLimit0 ← readProp txConfig "gasLimit";
      p1 ← (if negb (truthy gasLimit0)
            then from ← readProp txConfig "from";
                 value ← readProp txConfig "value";
                 estimateGas_ (<["from" := from]> (<["value" := value]> ∅))
            else mret (Resolves gasLimit0));
      gasPrice0 ← readProp txConfig "gasPrice";
      p2 ← (if negb (truthy gasPrice0)
            then call (GetGasPrice isParent) (getGasPrice side)
            else mret (Resolves gasPrice0));
      nonce0 ← readProp txConfig "nonce";
      p3 ← (if negb (truthy nonce0)
            then from ← readProp txConfig "from";
                 call (GetTransactionCount isParent from (VStr "pending"))
                      (getTransactionCount side from (VStr "pending"))
            else mret (Resolves nonce0));
      chainId0 ← readProp txConfig "chainId";
      p4 ← (if negb (truthy chainId0)
            then call (GetChainId isParent) (getChainId side)
            else mret (Resolves chainId0));
      '(gasLimit, gasPrice, nonce, chainId) ← await_all p1 p2 p3 p4;
      emit (Log "options filled");;
      writeProp txConfig "gasLimit" (Number gasLimit);;
      writeProp txConfig "nonce" nonce;;
      writeProp txConfig "chainId" chainId;;
      (if supported
       then writeProp txConfig "maxFeePerGas" maxFeePerGas;;
            writeProp txConfig "maxPriorityFeePerGas" maxPriorityFeePerGas
       else writeProp txConfig "gasPrice" (Number gasPrice));;
      mret txConfig
  else mret txConfig.

(** [processWrite(method, option = {})] *)
Definition processWrite (client : Web3SideChainClient)
    (method : BaseContractMethod) (option : Value) : Op Result :=
  let option := defaultTo (VObj ∅) option in
  run (validateTxOption_ option;; emit (Log "process write"))
      (config ← createTransactionConfig client option (Some method)
                  (isParent contractParam) true;
       emit (Log "process write config");;
       returnTransaction ← propOf option "returnTransaction";
       if truthy returnTransaction
       then c ← load config;
            emit MethodEncodeABI;;
            mret (RMerged (merge c (<["data" := method_encodeABI method]>
                                     (<["to" := method_address method]> ∅))))
       else c ← load config;
            emit (MethodWrite c);;
            mret (RWrite (method_write method c))).

(** [sendTransaction(option = {})] *)
Definition sendTransaction (client : Web3SideChainClient)
    (option : Value) : Op Result :=
  let option := defaultTo (VObj ∅) option in
  let side := getClient client (isParent contractParam) in
  run (validateTxOption_ option;; emit (Log "process write"))
      (config ← createTransactionConfig client option None
                  (isParent contractParam) true;
       emit (Log "process write config");;
       returnTransaction ← propOf option "returnTransaction";
       if truthy returnTransaction
       then mret (RConfig config)
       else c ← load config;
            emit (ClientWrite (isParent contractParam) c);;
            mret (RWrite (write side c))).

(** [readTransaction(option = {})] *)
Definition readTransaction (client : Web3SideChainClient)
    (option : Value) : Op Result :=
  let option := defaultTo (VObj ∅) option in
  let side := getClient client (isParent contractParam) in
  run (validateTxOption_ option;; emit (Log "process read"))
      (config ← createTransactionConfig client option None
                  (isParent contractParam) true;
       emit (Log "write tx config created");;
       returnTransaction ← propOf option "returnTransaction";
       if truthy returnTransaction
       then mret (RConfig config)
       else c ← load config;
            p ← call (ClientRead (isParent contractParam) c) (read side c);
            v ← await p;
            mret (RValue v)).

(** [processRead(method, option = {})] *)
Definition processRead (client : Web3SideChainClient)
    (method : BaseContractMethod) (option : Value) : Op Result :=
  let option := defaultTo (VObj ∅) option in
  run (validateTxOption_ option;; emit (Log "process read"))
      (config ← createTransactionConfig client option (Some method)
                  (isParent contractParam) false;
       emit (Log "read tx config created");;
       returnTransaction ← propOf option "returnTransaction";
       if truthy returnTransaction
       then c ← load config;
            emit MethodEncodeABI;;
            memo ← getMemo;
            match memo with
            | None => throw TypeError
            | Some contract =>
                mret (RMerged (merge c (<["data" := method_encodeABI method]>
                                         (<["to" := contract_address contract]> ∅))))
            end
       else c ← load config;
            p ← call (MethodRead c) (method_read method c);
            v ← await p;
            mret (RValue v)).

(** [getContract_({ isParent, tokenAddress, abi })] *)
Definition getContract_ (client : Web3SideChainClient)
    (isParent : bool) (tokenAddress abi : Value) : M BaseContract :=
  emit (GetContract isParent tokenAddress abi);;
  mret (client_getContract (getClient client isParent) tokenAddress abi).

(** [getContract()] runs in two turns.  The call itself either hands back the
    memoised contract ([Some]) or issues the ABI fetch and leaves a promise
    pending ([None]). *)
Definition getContract_call : M (option BaseContract) :=
  memo ← getMemo;
  match memo with
  | Some contract => mret (Some contract)
  | None =>
      emit (GetABI (name contractParam) (bridgeType contractParam));;
      mret None
  end.

(** The [then] callback, run once the ABI promise is fulfilled with [abi]. *)
Definition getContract_then (client : Web3SideChainClient) (abi : Value) : M BaseContract :=
  contract ← getContract_ client (isParent contractParam)
               (address contractParam) abi;
  setMemo contract;;
  mret contract.

(** A call of [getContract()] whose ABI promise settles before anything else
    runs on the token.  Modelled from the spec: [promiseResolve] of
    [./promise_resolve] is not in [src/]; the spec has it wrap the memoised
    contract so that it is reached like the result of the first call, that is,
    in a fulfilled promise. *)
Definition getContract (client : Web3SideChainClient) : Op BaseContract :=
  run (mret tt)
      (started ← getContract_call;
       match started with
       | Some contract => mret contract
       | None =>
           abi ← await (getABI client (name contractParam) (bridgeType contractParam));
           getContract_then client abi
       end).

End BaseToken.

(** ** What a write-mode build does, field by field

    The definitions below name the pieces of one run of
    [createTransactionConfig]; [createTransactionConfig_write] proves that the
    builder computes exactly them. *)

(** The default record after [Object.assign(defaultConfig, txConfig || {})]. *)
Definition merged (txConfig : Value) (target : Obj) : Obj :=
  Object_assign target (ownProps (if truthy txConfig then txConfig else VObj ∅)).

(** The test guarding the [throw] on the merged record [m]. *)
Definition guardFires (client : Web3SideChainClient) (isParent : bool) (m : Obj) : bool :=
  negb isParent && isEIP1559Supported client isParent
  && (truthy (get "maxFeePerGas" m) || truthy (get "maxPriorityFeePerGas" m)).

(** The gas estimate call and the promise it returns. *)
Definition gasCall (client : Web3SideChainClient) (method : option BaseContractMethod)
    (isParent : bool) (m : Obj) : Event * Response :=
  let config : Obj := <["from" := get "from" m]> (<["value" := get "value" m]> ∅) in
  match method with
  | Some mt => (MethodEstimateGas config, method_estimateGas mt config)
  | None => (EstimateGas isParent config, estimateGas (getClient client isParent) config)
  end.

Definition countCall (client : Web3SideChainClient) (isParent : bool) (m : Obj) :
    Event * Response :=
  (GetTransactionCount isParent (get "from" m) (VStr "pending"),
   getTransactionCount (getClient client isParent) (get "from" m) (VStr "pending")).

(** One element of the [Promise.all] array: a truthy current value is used as
    it is, otherwise the call is issued. *)
Definition issued (cur : Value) (c : Event * Response) : list Event * Response :=
  if truthy cur then ([], Resolves cur) else ([c.1], c.2).

(** The four elements of the array. *)
Definition gasLimitP (client : Web3SideChainClient) (method : option BaseContractMethod)
    (isParent : bool) (m : Obj) : list Event * Response :=
  issued (get "gasLimit" m) (gasCall client method isParent m).

Definition gasPriceP (client : Web3SideChainClient) (isParent : bool) (m : Obj) :
    list Event * Response :=
  issued (get "gasPrice" m) (GetGasPrice isParent, getGasPrice (getClient client isParent)).

Definition nonceP (client : Web3SideChainClient) (isParent : bool) (m : Obj) :
    list Event * Response :=
  issued (get "nonce" m) (countCall client isParent m).

Definition chainIdP (client : Web3SideChainClient) (isParent : bool) (m : Obj) :
    list Event * Response :=
  issued (get "chainId" m) (GetChainId isParent, getChainId (getClient client isParent)).

(** The calls issued while the array is built, in order. *)
Definition issuedCalls (client : Web3SideChainClient) (method : option BaseContractMethod)
    (isParent : bool) (m : Obj) : list Event :=
  (gasLimitP client method isParent m).1 ++ (gasPriceP client isParent m).1
  ++ (nonceP client isParent m).1 ++ (chainIdP client isParent m).1.

(** [Promise.all] on four settled promises: the four values, or the first
    rejection. *)
Definition settle (p1 p2 p3 p4 : Response) : Res (Value * Value * Value * Value) :=
  match p1, p2, p3, p4 with
  | Rejects r, _, _, _ => Fail (Upstream r)
  | _, Rejects r, _, _ => Fail (Upstream r)
  | _, _, Rejects r, _ => Fail (Upstream r)
  | _, _, _, Rejects r => Fail (Upstream r)
  | Resolves v1, Resolves v2, Resolves v3, Resolves v4 => Ok (v1, v2, v3, v4)
  end.

(** The record after the writes that follow the [await]. *)
Definition filled (supported : bool) (m : Obj) (gasLimit gasPrice nonce chainId : Value) : Obj :=
  let m1 : Obj := <["chainId" := chainId]> (<["nonce" := nonce]> (<["gasLimit" := Number gasLimit]> m)) in
  if supported
  then <["maxPriorityFeePerGas" := get "maxPriorityFeePerGas" m]>
         (<["maxFeePerGas" := get "maxFeePerGas" m]> m1)
  else <["gasPrice" := Number gasPrice]> m1.

(** The calls that resolve a config field over the network. *)
Definition isResolution (ev : Event) : bool :=
  match ev with
  | EstimateGas _ _ | MethodEstimateGas _ | GetGasPrice _
  | GetTransactionCount _ _ _ | GetChainId _ => true
  | _ => false
  end.

(** ** Calls of [getContract()] that overlap

    Between the call and its [then] callback other work can run on the token.
    A schedule lists the turns in the order they run. *)
Inductive Turn :=
| Calls
| AbiSettles (client : Web3SideChainClient).

(** [Calls]: a caller invokes [getContract()].  [AbiSettles client]: the
    oldest pending ABI promise settles with what [client] answers, and its
    [then] callback runs if it was fulfilled.  [pending] counts the ABI
    promises not yet settled.  The outcomes are listed in the order the
    promises settle. *)
Fixpoint interleave (token : IContractInitParam) (turns : list Turn) (pending : nat)
    (s : State) : list (Outcome BaseContract) * State * list Event :=
  match turns with
  | [] => ([], s, [])
  | Calls :: rest =>
      match getContract_call token s with
      | (Ok (Some contract), s1, t1) =>
          match interleave token rest pending s1 with
          | (os, s2, t2) => (Fulfilled contract :: os, s2, t1 ++ t2)
          end
      | (Ok None, s1, t1) =>
          match interleave token rest (S pending) s1 with
          | (os, s2, t2) => (os, s2, t1 ++ t2)
          end
      | (Fail e, s1, t1) =>
          match interleave token rest pending s1 with
          | (os, s2, t2) => (Rejected e :: os, s2, t1 ++ t2)
          end
      end
  | AbiSettles client :: rest =>
      match pending with
      | O => interleave token rest O s
      | S pending' =>
          match settled ((abi ← await (getABI client (name token) (bridgeType token));
                          getContract_then token client abi) s) with
          | (o, s1, t1) =>
              match interleave token rest pending' s1 with
              | (os, s2, t2) => (o :: os, s2, t1 ++ t2)
              end
          end
      end
  end.

(** Calls of [getContract()] that do not overlap: each one settles before the
    next starts.  Every call is listed with its outcome and its own events. *)
Fixpoint getContract_each (token : IContractInitParam)
    (clients : list Web3SideChainClient) (s : State) :
    list (Outcome BaseContract * list Event) * State :=
  match clients with
  | [] => ([], s)
  | client :: rest =>
      match getContract token client s with
      | (o, s1, t) =>
          match getContract_each token rest s1 with
          | (os, s2) => ((o, t) :: os, s2)
          end
      end
  end.

Definition isGetABI (ev : Event) : bool :=
  match ev with GetABI _ _ => true | _ => false end.

Definition isFulfilled {A} (o : Outcome A) : bool :=
  match o with Fulfilled _ => true | _ => false end.

(** The ABI fetches issued by the calls that were fulfilled. *)
Fixpoint abiFetchesOfFulfilled (calls : list (Outcome BaseContract * list Event)) : nat :=
  match calls with
  | [] => 0%nat
  | (o, t) :: rest =>
      ((if isFulfilled o then length (List.filter isGetABI t) else 0)
       + abiFetchesOfFulfilled rest)%nat
  end.

(** ** Other classes of calls *)

Definition isClientRead (ev : Event) : bool :=
  match ev with ClientRead _ _ => true | _ => false end.

Definition isGetGasPrice (ev : Event) : bool :=
  match ev with GetGasPrice _ => true | _ => false end.

(** The resolutions of gas limit, nonce and chain id. *)
Definition isLimitNonceChain (ev : Event) : bool :=
  match ev with
  | EstimateGas _ _ | MethodEstimateGas _ | GetTransactionCount _ _ _
  | GetChainId _ => true
  | _ => false
  end.

Definition isGasEstimate (ev : Event) : bool :=
  match ev with EstimateGas _ _ | MethodEstimateGas _ => true | _ => false end.

Definition isGetChainId (ev : Event) : bool :=
  match ev with GetChainId _ => true | _ => false end.

(** The calls a build can make. *)
Definition isBuilderCall (ev : Event) : bool :=
  match ev with
  | Log _ | IsEIP1559Supported _ => true
  | _ => isResolution ev
  end.

(** ** Sample collaborators *)

Definition stubClient (gasPrice nonce : Value) (instance : nat) : BaseWeb3Client :=
  {| estimateGas := λ _, Resolves (VNum 21000);
     getGasPrice := Resolves gasPrice;
     getTransactionCount := λ _ _, Resolves nonce;
     getChainId := Resolves (VNum 137);
     read := λ _, Resolves (VStr "balance");
     write := λ _, VStr "0xhash";
     client_getContract := λ addr _,
       {| contract_instance := instance; contract_address := addr |} |}.

(** A client whose two sides answer alike; [supported] is the answer of
    [isEIP1559Supported] for both sides. *)
Definition stubWeb3 (supported : bool) (instance : nat) : Web3SideChainClient :=
  {| parent := stubClient (VStr "7") (VNum 5) instance;
     child := stubClient (VStr "7") (VNum 5) instance;
     isEIP1559Supported := λ _, supported;
     getABI := λ _ _, Resolves (VStr "abi") |}.

(** A client whose ABI fetch is rejected. *)
Definition stubWeb3Down : Web3SideChainClient :=
  {| parent := stubClient (VStr "7") (VNum 5) 0;
     child := stubClient (VStr "7") (VNum 5) 0;
     isEIP1559Supported := λ _, true;
     getABI := λ _ _, Rejects (VStr "timeout") |}.

Definition stubMethod : BaseContractMethod :=
  {| method_estimateGas := λ _, Resolves (VNum 50000);
     method_encodeABI := VStr "0xa9059cbb";
     method_address := VStr "0xToken";
     method_read := λ _, Resolves (VNum 42);
     method_write := λ _, VStr "0xhash" |}.

Definition tokenOn (isParent : bool) : IContractInitParam :=
  {| address := VStr "0xToken"; isParent := isParent;
     name := VStr "ChildERC20"; bridgeType := VStr "pos" |}.

Definition stateWith (parentDefault childDefault : Obj) : State :=
  {| parentDefaultConfig := parentDefault;
     childDefaultConfig := childDefault;
     contract_ := None |}.

(** ** The side guards *)

Inductive UsageError :=
| AllowedOnRoot (methodName : Value)
| AllowedOnChild (methodName : Value).

(** What a guard does: it returns, or it raises. *)
Inductive Guard :=
| Passes
| Raises (e : UsageError).

(** [checkForRoot(methodName)].  Modelled from the spec: the logger of
    [Web3SideChainClient] is not in [src/]; the spec has [error(code, ...args)]
    give an error signal carrying the code and the arguments, whose [throw()]
    raises it. *)
Definition checkForRoot (token : IContractInitParam) (methodName : Value) : Guard :=
  if negb (isParent token) then Raises (AllowedOnRoot methodName) else Passes.

(** [checkForChild(methodName)]: the error is built with the literal
    ["withdrawStart"], not with the parameter. *)
Definition checkForChild (token : IContractInitParam) (methodName : Value) : Guard :=
  if isParent token then Raises (AllowedOnChild (VStr "withdrawStart")) else Passes.

(** ** The transfer helpers

    [transferERC20] and [transferERC721] chain [processWrite] on
    [getContract()].  Building a method handle is a call on the contract, so
    their traces add that call to the events above. *)
Inductive TokenEvent :=
| Base (ev : Event)
| ContractMethod (instance : nat) (methodName : string) (args : list Value).

Definition TokenOp (A : Type) : Type :=
  State → Outcome A * State * list TokenEvent.

Definition lift {A} (op : Op A) : TokenOp A := λ s,
  match op s with (o, s', t) => (o, s', Base <$> t) end.

(** [p.then(callback)]: the callback runs on the value [p] is fulfilled with;
    the promise it returns settles the result, and an exception it throws
    rejects the result. *)
Definition andThen {A B} (p : TokenOp A) (callback : A → TokenOp B) : TokenOp B := λ s,
  match p s with
  | (Fulfilled a, s1, t1) =>
      match callback a s1 with
      | (Throws e, s2, t2) => (Rejected e, s2, t1 ++ t2)
      | (o, s2, t2) => (o, s2, t1 ++ t2)
      end
  | (Rejected e, s1, t1) => (Rejected e, s1, t1)
  | (Throws e, s1, t1) => (Throws e, s1, t1)
  end.

(** [contract.method(name, ...args)], where [methodOf] is how the contract
    builds its handles. *)
Definition contract_method
    (methodOf : BaseContract → string → list Value → BaseContractMethod)
    (contract : BaseContract) (methodName : string) (args : list Value)
    (k : BaseContractMethod → TokenOp Result) : TokenOp Result := λ s,
  match k (methodOf contract methodName args) s with
  | (o, s', t) =>
      (o, s', ContractMethod (contract_instance contract) methodName args :: t)
  end.

(** [transferERC20(to, amount, option)].  [Converter.toHex] of [../utils] is
    not in [src/] and is the parameter [toHex]. *)
Definition transferERC20 (token : IContractInitParam) (client : Web3SideChainClient)
    (methodOf : BaseContract → string → list Value → BaseContractMethod)
    (toHex : Value → Value) (to amount option : Value) : TokenOp Result :=
  andThen (lift (getContract token client)) (λ contract,
    contract_method methodOf contract "transfer" [to; toHex amount] (λ method,
      lift (processWrite token client method option))).

(** [transferERC721(from, to, tokenId, option)] *)
Definition transferERC721 (token : IContractInitParam) (client : Web3SideChainClient)
    (methodOf : BaseContract → string → list Value → BaseContractMethod)
    (from to tokenId option : Value) : TokenOp Result :=
  andThen (lift (getContract token client)) (λ contract,
    contract_method methodOf contract "transferFrom" [from; to; tokenId] (λ method,
      lift (processWrite token client method option))).

(** ** More classes of calls *)

(** The side a client call is made on; [None] for the other events. *)
Definition sideOf (ev : Event) : option bool :=
  match ev with
  | IsEIP1559Supported side | EstimateGas side _ | GetGasPrice side
  | GetTransactionCount side _ _ | GetChainId side | ClientRead side _
  | ClientWrite side _ | GetContract side _ _ => Some side
  | _ => None
  end.

Definition onSide (side : bool) (ev : Event) : bool :=
  match sideOf ev with
  | Some side' => Bool.eqb side' side
  | None => true
  end.

Definition isClientEstimate (ev : Event) : bool :=
  match ev with EstimateGas _ _ => true | _ => false end.

Definition isMethodEstimate (ev : Event) : bool :=
  match ev with MethodEstimateGas _ => true | _ => false end.

Definition isGetTransactionCount (ev : Event) : bool :=
  match ev with GetTransactionCount _ _ _ => true | _ => false end.

Definition isMethodWrite (ev : Event) : bool :=
  match ev with MethodWrite _ => true | _ => false end.

Definition isClientWrite (ev : Event) : bool :=
  match ev with ClientWrite _ _ => true | _ => false end.

Definition isMethodRead (ev : Event) : bool :=
  match ev with MethodRead _ => true | _ => false end.

Definition isEncodeABI (ev : Event) : bool :=
  match ev with MethodEncodeABI => true | _ => false end.

(** The calls on a method handle. *)
Definition isMethodCall (ev : Event) : bool :=
  match ev with
  | MethodEstimateGas _ | MethodEncodeABI | MethodRead _ | MethodWrite _ => true
  | _ => false
  end.

(** The calls that send or read a transaction, or encode one. *)
Definition isExecution (ev : Event) : bool :=
  match ev with
  | ClientRead _ _ | ClientWrite _ _ | MethodEncodeABI | MethodRead _
  | MethodWrite _ => true
  | _ => false
  end.

(** The fields a write-mode build assigns. *)
Definition isWrittenField (k : string) : bool :=
  bool_decide (k ∈ ["gasLimit"; "nonce"; "chainId"; "gasPrice";
                    "maxFeePerGas"; "maxPriorityFeePerGas"]).

(** A handle factory for the samples. *)
Definition stubMethodOf (contract : BaseContract) (methodName : string)
    (args : list Value) : BaseContractMethod :=
  {| method_estimateGas := λ _, Resolves (VNum 50000);
     method_encodeABI := VStr methodName;
     method_address := contract_address contract;
     method_read := λ _, Resolves (VNum 42);
     method_write := λ _, VStr "0xhash" |}.

(** The events of a transfer that are events of the operations above. *)
Definition baseEvents (t : list TokenEvent) : list Event :=
  flat_map (λ ev, match ev with Base e => [e] | ContractMethod _ _ _ => [] end) t.

(** An operation left alone the other side's default record and the memo. *)
Definition framed (token : IContractInitParam) (s s' : State) : Prop :=
  deref (defaultConfigOf (negb (isParent token))) s'
  = deref (defaultConfigOf (negb (isParent token))) s
  ∧ contract_ s' = contract_ s.

(** ** The claims as the specification words them

    Each is a statement about one input; the proofs below show where it holds
    and where it does not. *)

(** C5 as stated: an option that is an array or not an object makes every
    public operation throw the validation error before any call is made. *)
Definition rejectsNonRecord (token : IContractInitParam) (client : Web3SideChainClient)
    (method : BaseContractMethod) (option : Value) (s : State) : Prop :=
  typeof option ≠ "object" ∨ Array_isArray option = true →
  processWrite token client method option s = (Throws TransactionOptionNotObject, s, [])
  ∧ sendTransaction token client option s = (Throws TransactionOptionNotObject, s, [])
  ∧ readTransaction token client option s = (Throws TransactionOptionNotObject, s, [])
  ∧ processRead token client method option s = (Throws TransactionOptionNotObject, s, []).

(** C3 as stated: [processRead] resolves the fields a write-mode build
    resolves. *)
Definition readViaMethodUsesWritePath (token : IContractInitParam)
    (client : Web3SideChainClient) (method : BaseContractMethod) (option : Value)
    (s : State) : Prop :=
  List.filter isResolution (processRead token client method option s).2
  = List.filter isResolution
      (createTransactionConfig client (defaultTo (VObj ∅) option) (Some method)
         (isParent token) true s).2.

(** C7 as stated: with the flag set, [readTransaction] is fulfilled with the
    merged config, the option over the defaults of the token's side, and
    [read] is not called. *)
Definition returnsMergedConfig (token : IContractInitParam)
    (client : Web3SideChainClient) (props : Obj) (s : State) : Prop :=
  truthy (get "returnTransaction" props) = true →
  match readTransaction token client (VObj props) s with
  | (out, s', t) =>
      List.filter isClientRead t = []
      ∧ ∃ config,
          out = Fulfilled (RConfig config)
          ∧ deref config s'
            = merged (VObj props) (deref (defaultConfigOf (isParent token)) s)
  end.

(** The caller's option has none of the gas fields. *)
Definition callerGaveNoGasFields (txConfig : Value) : bool :=
  negb (has "gasLimit" (ownProps txConfig))
  && negb (has "gasPrice" (ownProps txConfig))
  && negb (has "maxFeePerGas" (ownProps txConfig))
  && negb (has "maxPriorityFeePerGas" (ownProps txConfig)).

(** C2 as stated: a config built in write mode holds one fee representation,
    chosen by the side's support alone.  Without support it has an integer
    [gasPrice] and neither dynamic fee field; with support, and no gas field
    from the caller, it has both dynamic fee fields and no [gasPrice]. *)
Definition oneFeeRepresentation (client : Web3SideChainClient) (txConfig : Value)
    (method : option BaseContractMethod) (isParent : bool) (s : State) : Prop :=
  match createTransactionConfig client txConfig method isParent true s with
  | (Ok config, s', _) =>
      let built := deref config s' in
      if isEIP1559Supported client isParent
      then callerGaveNoGasFields txConfig = true →
           has "maxFeePerGas" built = true
           ∧ has "maxPriorityFeePerGas" built = true
           ∧ has "gasPrice" built = false
      else isInteger (get "gasPrice" built) = true
           ∧ has "maxFeePerGas" built = false
           ∧ has "maxPriorityFeePerGas" built = false
  | (Fail _, _, _) => True
  end.

(** C6 as stated: gas limit, nonce and chain id given by the caller are not
    resolved, and the omitted gas price still is. *)
Definition suppliedFieldsNotResolved (client : Web3SideChainClient) (props : Obj)
    (method : option BaseContractMethod) (isParent : bool) (s : State) : Prop :=
  has "gasLimit" props = true → has "nonce" props = true →
  has "chainId" props = true →
  let t := (createTransactionConfig client (VObj props) method isParent true s).2 in
  List.filter isLimitNonceChain t = []
  ∧ (has "gasPrice" props = false →
     List.filter isGetGasPrice t = [GetGasPrice isParent]).

(** C10 as stated: when the caller omits the gas price it is fetched, and on
    a side with dynamic-fee support the built config has no gas price. *)
Definition gasPriceFetchedAndDropped (client : Web3SideChainClient) (props : Obj)
    (method : option BaseContractMethod) (isParent : bool) (s : State) : Prop :=
  has "gasPrice" props = false →
  match createTransactionConfig client (VObj props) method isParent true s with
  | (r, s', t) =>
      List.filter isGetGasPrice t = [GetGasPrice isParent]
      ∧ (isEIP1559Supported client isParent = true →
         match r with
         | Ok config => has "gasPrice" (deref config s') = false
         | Fail _ => True
         end)
  end.

(** The contract instances the fulfilled calls were given. *)
Definition fulfilledInstances (outs : list (Outcome BaseContract)) : list nat :=
  flat_map (λ o, match o with
                 | Fulfilled contract => [contract_instance contract]
                 | _ => []
                 end) outs.

(** C8 as stated, on a schedule whose calls are all fulfilled: the ABI is
    fetched at most once and every call gets the same contract instance. *)
Definition memoizedAcrossCalls (token : IContractInitParam) (turns : list Turn)
    (s : State) : Prop :=
  match interleave token turns 0 s with
  | (outs, _, t) =>
      forallb isFulfilled outs = true →
      (length (List.filter isGetABI t) ≤ 1)%nat
      ∧ ∀ i j, In i (fulfilledInstances outs) → In j (fulfilledInstances outs) →
               i = j
  end.

(** * Proofs *)

(** ** Running the monad *)

Lemma after_nil {A} (x : Res A * State * list Event) : after [] x = x.
Proof. by destruct x as [[r s] t]. Qed.

Lemma after_after {A} t1 t2 (x : Res A * State * list Event) :
  after t1 (after t2 x) = after (t1 ++ t2) x.
Proof. destruct x as [[r s] t]. simpl. by rewrite app_assoc. Qed.

Lemma deref_store r o s : deref r (store r o s) = o.
Proof. by destruct r. Qed.

Lemma store_store r o o' s : store r o' (store r o s) = store r o' s.
Proof. by destruct r. Qed.

Lemma contract_store r o s : contract_ (store r o s) = contract_ s.
Proof. by destruct r. Qed.

Lemma run_ret {A B} (a : A) (f : A → M B) s : (mret a ≫= f) s = f a s.
Proof. unfold mbind, M_bind, mret, M_ret. apply after_nil. Qed.

Lemma run_throw {A B} e (f : A → M B) s : (throw e ≫= f) s = (Fail e, s, []).
Proof. reflexivity. Qed.

Lemma run_emit {B} ev (f : unit → M B) s : (emit ev ≫= f) s = after [ev] (f tt s).
Proof. reflexivity. Qed.

Lemma run_load {B} r (f : Obj → M B) s : (load r ≫= f) s = f (deref r s) s.
Proof. unfold mbind, M_bind, load. apply after_nil. Qed.

Lemma run_save {B} r o (f : unit → M B) s : (save r o ≫= f) s = f tt (store r o s).
Proof. unfold mbind, M_bind, save. apply after_nil. Qed.

Lemma run_readProp {B} r k (f : Value → M B) s :
  (readProp r k ≫= f) s = f (get k (deref r s)) s.
Proof.
  unfold readProp, mbind, M_bind, load, mret, M_ret. simpl. apply after_nil.
Qed.

Lemma run_writeProp {B} r k v (f : unit → M B) s :
  (writeProp r k v ≫= f) s = f tt (store r (<[k := v]> (deref r s)) s).
Proof.
  unfold writeProp, mbind, M_bind, load, save. simpl. apply after_nil.
Qed.

Lemma run_call {B} ev p (f : Response → M B) s :
  (call ev p ≫= f) s = after [ev] (f p s).
Proof.
  unfold call, mbind, M_bind, emit, mret, M_ret. simpl.
  destruct (f p s) as [[r s'] t]. reflexivity.
Qed.

Lemma run_getMemo {B} (f : option BaseContract → M B) s :
  (getMemo ≫= f) s = f (contract_ s) s.
Proof. unfold mbind, M_bind, getMemo. apply after_nil. Qed.

Lemma run_setMemo {B} c (f : unit → M B) s :
  (setMemo c ≫= f) s =
    f tt {| parentDefaultConfig := parentDefaultConfig s;
            childDefaultConfig := childDefaultConfig s;
            contract_ := Some c |}.
Proof. unfold mbind, M_bind, setMemo. apply after_nil. Qed.

Lemma run_bind_assoc {A B C} (m : M A) (f : A → M B) (g : B → M C) s :
  ((m ≫= f) ≫= g) s = (m ≫= λ a, f a ≫= g) s.
Proof.
  unfold mbind, M_bind. destruct (m s) as [[[a|e] s1] t1]; [|reflexivity].
  destruct (f a s1) as [[[b|e] s2] t2]; simpl; [|reflexivity].
  destruct (g b s2) as [[r s3] t3]. simpl. by rewrite app_assoc.
Qed.

Lemma run_await {B} p (f : Value → M B) s :
  (await p ≫= f) s =
    match p with Resolves v => f v s | Rejects r => (Fail (Upstream r), s, []) end.
Proof. destruct p; [apply run_ret | reflexivity]. Qed.

Lemma run_await_all {B} p1 p2 p3 p4 (f : Value * Value * Value * Value → M B) s :
  (await_all p1 p2 p3 p4 ≫= f) s =
    match settle p1 p2 p3 p4 with
    | Ok vs => f vs s
    | Fail e => (Fail e, s, [])
    end.
Proof.
  unfold await_all. rewrite !run_bind_assoc.
  destruct p1, p2, p3, p4; simpl;
    repeat first [ rewrite run_bind_assoc | rewrite run_await | rewrite run_ret ];
    reflexivity.
Qed.

(** An element of the array whose call first reads a property. *)
Lemma run_read_then_issue {B} cur r k (g : Value → M Response) (f : Response → M B) s :
  ((if negb (truthy cur) then readProp r k ≫= g else mret (Resolves cur)) ≫= f) s =
  ((if negb (truthy cur) then g (get k (deref r s)) else mret (Resolves cur)) ≫= f) s.
Proof.
  destruct (truthy cur); [reflexivity|]. simpl.
  by rewrite run_bind_assoc, run_readProp.
Qed.

(** An element of the array, run. *)
Lemma run_issue {B} cur ev p (f : Response → M B) s :
  ((if negb (truthy cur) then call ev p else mret (Resolves cur)) ≫= f) s =
  after (issued cur (ev, p)).1 (f (issued cur (ev, p)).2 s).
Proof.
  unfold issued. destruct (truthy cur); simpl.
  - by rewrite run_ret, after_nil.
  - apply run_call.
Qed.

Create Rewrite HintDb run.
#[global] Hint Rewrite @run_bind_assoc @run_ret @run_throw @run_emit @run_load @run_save
  @run_readProp @run_writeProp @run_call @run_getMemo @run_setMemo
  @after_after @after_nil
  deref_store store_store contract_store : run.

(** A build that only reads: the merge, one log line, nothing else. *)
Lemma createTransactionConfig_read client txc method isP s :
  createTransactionConfig client txc method isP false s =
    (Ok (defaultConfigOf isP),
     store (defaultConfigOf isP) (merged txc (deref (defaultConfigOf isP) s)) s,
     [Log "txConfig"]).
Proof.
  unfold createTransactionConfig. autorewrite with run. reflexivity.
Qed.

(** A build in write mode, in one equation. *)
Lemma createTransactionConfig_write client txc method isP s :
  let ref := defaultConfigOf isP in
  let m := merged txc (deref ref s) in
  let pre := [Log "txConfig"; IsEIP1559Supported isP] in
  createTransactionConfig client txc method isP true s =
    if guardFires client isP m
    then (Fail ChildNoEIP1559, store ref m s, pre)
    else
      match settle (gasLimitP client method isP m).2 (gasPriceP client isP m).2
                   (nonceP client isP m).2 (chainIdP client isP m).2 with
      | Ok (gasLimit, gasPrice, nonce, chainId) =>
          (Ok ref,
           store ref (filled (isEIP1559Supported client isP) m
                        gasLimit gasPrice nonce chainId) s,
           pre ++ issuedCalls client method isP m ++ [Log "options filled"])
      | Fail e => (Fail e, store ref m s, pre ++ issuedCalls client method isP m)
      end.
Proof.
  intros ref m pre. unfold createTransactionConfig.
  autorewrite with run. fold ref. fold (merged txc (deref ref s)). fold m.
  unfold guardFires, issuedCalls, gasLimitP, gasPriceP, nonceP, chainIdP,
    gasCall, countCall, filled.
  destruct (negb isP && isEIP1559Supported client isP
            && (truthy (get "maxFeePerGas" m)
                || truthy (get "maxPriorityFeePerGas" m))); [reflexivity|].
  autorewrite with run; rewrite !run_read_then_issue; autorewrite with run.
  destruct method;
    rewrite run_issue; autorewrite with run;
    rewrite run_issue; autorewrite with run;
    rewrite run_read_then_issue, run_issue; autorewrite with run;
    rewrite run_issue; autorewrite with run;
    rewrite run_await_all;
    (match goal with |- context [settle ?a ?b ?c ?d] =>
       destruct (settle a b c d) as [[[[gl gp] n] c']|e]
     end; [|simpl; by rewrite ?app_nil_r, <- ?app_assoc]);
    autorewrite with run;
    destruct (isEIP1559Supported client isP); autorewrite with run;
    simpl; by rewrite <- ?app_assoc.
Qed.

(** ** Option validation *)

Lemma validateTxOption__record (props : Obj) s :
  validateTxOption_ (VObj props) s = (Ok tt, s, []).
Proof. reflexivity. Qed.

Lemma validateTxOption__rejects option s :
  typeof option ≠ "object" ∨ Array_isArray option = true →
  validateTxOption_ option s = (Fail TransactionOptionNotObject, s, []).
Proof.
  intros [H|H]; destruct option; try discriminate H; try reflexivity;
    by destruct H.
Qed.

Lemma run_throws {A} (sync : M unit) (async : M A) e s :
  sync s = (Fail e, s, []) → run sync async s = (Throws e, s, []).
Proof. intros H. unfold run. by rewrite H. Qed.

Lemma validate_then_log_rejects option msg s :
  typeof option ≠ "object" ∨ Array_isArray option = true →
  (validateTxOption_ option;; emit (Log msg)) s
  = (Fail TransactionOptionNotObject, s, []).
Proof.
  intros H. unfold mbind, M_bind. by rewrite validateTxOption__rejects.
Qed.

Lemma validate_then_log_passes option msg s :
  typeof option = "object" → Array_isArray option = false →
  (validateTxOption_ option;; emit (Log msg)) s = (Ok tt, s, [Log msg]).
Proof. intros H1 H2. by destruct option. Qed.

(** C9. [null] gets past the validator: [typeof null] is ["object"] and
    [null] is not an array, so [validateTxOption_] returns normally, and none
    of the four public operations throws on a [null] option. *)
Theorem null_option_passes_validation token client method s :
  typeof VNull = "object" ∧ Array_isArray VNull = false
  ∧ validateTxOption_ VNull s = (Ok tt, s, [])
  ∧ (∀ e, (processWrite token client method VNull s).1.1 ≠ Throws e)
  ∧ (∀ e, (sendTransaction token client VNull s).1.1 ≠ Throws e)
  ∧ (∀ e, (readTransaction token client VNull s).1.1 ≠ Throws e)
  ∧ (∀ e, (processRead token client method VNull s).1.1 ≠ Throws e).
Proof.
  split_and!; try reflexivity; intros e;
    unfold processWrite, sendTransaction, readTransaction, processRead, run;
    cbn [defaultTo]; rewrite validate_then_log_passes by reflexivity;
    match goal with
    | |- context [after ?t (?m ?s0)] => destruct (m s0) as [[[a|e'] s1] t1]
    end; discriminate.
Qed.

(** C5, as stated, fails for an omitted option: [undefined] is not an object,
    yet the parameter default replaces it by the empty record, the validator
    accepts that, and the operation goes on to call the chain client. *)
Lemma omitted_option_not_rejected :
  ¬ rejectsNonRecord (tokenOn true) (stubWeb3 true 0) stubMethod VUndefined
      (stateWith ∅ ∅).
Proof.
  intros H. destruct H as [H _]; [by left|].
  vm_compute in H. discriminate H.
Qed.

(** C5, amended: for every option other than [undefined] that is an array or
    is not an object, each of the four public operations throws the
    validation error synchronously, leaves the state as it was and makes no
    call at all. *)
Theorem non_record_option_rejected token client method option s :
  option ≠ VUndefined →
  typeof option ≠ "object" ∨ Array_isArray option = true →
  processWrite token client method option s = (Throws TransactionOptionNotObject, s, [])
  ∧ sendTransaction token client option s = (Throws TransactionOptionNotObject, s, [])
  ∧ readTransaction token client option s = (Throws TransactionOptionNotObject, s, [])
  ∧ processRead token client method option s = (Throws TransactionOptionNotObject, s, []).
Proof.
  intros Hdef Hbad.
  assert (defaultTo (VObj ∅) option = option) as Hopt by by destruct option.
  unfold processWrite, sendTransaction, readTransaction, processRead.
  cbv zeta. rewrite Hopt.
  split_and!; apply run_throws, validate_then_log_rejects, Hbad.
Qed.

Lemma non_record_option_rejected_witness :
  (VArr [VNum 1] ≠ VUndefined
   ∧ (typeof (VArr [VNum 1]) ≠ "object" ∨ Array_isArray (VArr [VNum 1]) = true))
  ∧ processWrite (tokenOn true) (stubWeb3 true 0) stubMethod (VArr [VNum 1]) (stateWith ∅ ∅)
    = (Throws TransactionOptionNotObject, stateWith ∅ ∅, []).
Proof.
  split; [split; [discriminate | right; reflexivity]|].
  apply (non_record_option_rejected (tokenOn true) (stubWeb3 true 0) stubMethod
           (VArr [VNum 1]) (stateWith ∅ ∅)); [discriminate | right; reflexivity].
Defined.

(** ** The fee-market guard *)

Lemma guardFires_needs_support client isP m :
  isEIP1559Supported client isP = false → guardFires client isP m = false.
Proof.
  intros H. unfold guardFires. rewrite H. by destruct isP.
Qed.

Lemma guardFires_child_with_support client m :
  isEIP1559Supported client false = true →
  guardFires client false m
  = truthy (get "maxFeePerGas" m) || truthy (get "maxPriorityFeePerGas" m).
Proof. intros H. unfold guardFires. by rewrite H. Qed.

(** C1. The code does not reject what the claim says it rejects.  On the
    child side, with a client that reports no dynamic-fee support and an option
    carrying [maxFeePerGas], the build is not stopped: it issues the four
    network resolutions and is fulfilled with a config holding both
    [gasPrice] and [maxFeePerGas].  The guard fires in the opposite case:
    with the same option and a client that reports support, the build fails
    with the error whose message says the child chain has no such support. *)
Theorem child_unsupported_dynamic_fee_not_rejected :
  isEIP1559Supported (stubWeb3 false 0) false = false
  ∧ createTransactionConfig (stubWeb3 false 0)
      (VObj {["maxFeePerGas" := VNum 10]}) None false true (stateWith ∅ ∅)
    = (Ok ChildDefault,
       stateWith ∅
         (<["gasPrice" := VNum 7]> (<["chainId" := VNum 137]>
            (<["nonce" := VNum 5]> (<["gasLimit" := VNum 21000]>
               {["maxFeePerGas" := VNum 10]})))),
       [Log "txConfig"; IsEIP1559Supported false;
        EstimateGas false (<["from" := VUndefined]> (<["value" := VUndefined]> ∅));
        GetGasPrice false;
        GetTransactionCount false VUndefined (VStr "pending");
        GetChainId false; Log "options filled"])
  ∧ createTransactionConfig (stubWeb3 true 0)
      (VObj {["maxFeePerGas" := VNum 10]}) None false true (stateWith ∅ ∅)
    = (Fail ChildNoEIP1559, stateWith ∅ {["maxFeePerGas" := VNum 10]},
       [Log "txConfig"; IsEIP1559Supported false]).
Proof. split_and!; vm_compute; reflexivity. Qed.

(** ** The default records *)

(** The merge itself is as described: caller keys win, default-only keys
    pass through. *)
Lemma merged_lookup props target k :
  merged (VObj props) target !! k
  = match props !! k with
    | Some v => Some v
    | None => target !! k
    end.
Proof.
  unfold merged, Object_assign. cbn [truthy ownProps].
  destruct (props !! k) as [v|] eqn:Hk.
  - by apply lookup_union_Some_l.
  - by apply lookup_union_r.
Qed.

(** A read-mode build leaves the merged record in the store. *)
Lemma createTransactionConfig_stores_merge client txc method isP s :
  deref (defaultConfigOf isP)
    (createTransactionConfig client txc method isP false s).1.2
  = merged txc (deref (defaultConfigOf isP) s).
Proof. rewrite createTransactionConfig_read. cbn [fst snd]. apply deref_store. Qed.

(** C4. The code does not leave the default record alone.  A read-mode build
    on the parent side with option [{from: "0xA"}] over empty defaults leaves
    [from] in the parent default record.  A write-mode build leaves there the
    values it resolved as well, so the next build on that side, given an empty
    option and a client that would now answer nonce 6, issues no resolution
    and keeps sender ["0xA"] and nonce 5. *)
Theorem build_writes_into_default_record :
  createTransactionConfig (stubWeb3 false 0)
    (VObj {["from" := VStr "0xA"]}) None true false (stateWith ∅ ∅)
  = (Ok ParentDefault, stateWith {["from" := VStr "0xA"]} ∅, [Log "txConfig"])
  ∧ (createTransactionConfig (stubWeb3 false 0)
       (VObj {["from" := VStr "0xA"]}) None true true (stateWith ∅ ∅)).1.2
    = stateWith
        (<["gasPrice" := VNum 7]> (<["chainId" := VNum 137]>
           (<["nonce" := VNum 5]> (<["gasLimit" := VNum 21000]>
              {["from" := VStr "0xA"]})))) ∅
  ∧ createTransactionConfig
      {| parent := stubClient (VStr "9") (VNum 6) 0;
         child := stubClient (VStr "9") (VNum 6) 0;
         isEIP1559Supported := λ _, false;
         getABI := λ _ _, Resolves (VStr "abi") |}
      (VObj ∅) None true true
      (stateWith
         (<["gasPrice" := VNum 7]> (<["chainId" := VNum 137]>
            (<["nonce" := VNum 5]> (<["gasLimit" := VNum 21000]>
               {["from" := VStr "0xA"]})))) ∅)
    = (Ok ParentDefault,
       stateWith
         (<["gasPrice" := VNum 7]> (<["chainId" := VNum 137]>
            (<["nonce" := VNum 5]> (<["gasLimit" := VNum 21000]>
               {["from" := VStr "0xA"]})))) ∅,
       [Log "txConfig"; IsEIP1559Supported true; Log "options filled"]).
Proof. split_and!; vm_compute; reflexivity. Qed.

(** ** The public operations on top of the builder *)

Lemma run_build_read {B} client txc method isP (f : ObjRef → M B) s :
  (createTransactionConfig client txc method isP false ≫= f) s =
  after [Log "txConfig"]
    (f (defaultConfigOf isP)
       (store (defaultConfigOf isP) (merged txc (deref (defaultConfigOf isP) s)) s)).
Proof.
  unfold mbind, M_bind at 1. by rewrite createTransactionConfig_read.
Qed.

Lemma run_propOf_record {B} props k (f : Value → M B) s :
  (propOf (VObj props) k ≫= f) s = f (get k props) s.
Proof. apply run_ret. Qed.

Lemma run_propOf_null {B} k (f : Value → M B) s :
  (propOf VNull k ≫= f) s = (Fail TypeError, s, []).
Proof. reflexivity. Qed.

Lemma processRead_no_resolution token client method option s :
  List.filter isResolution (processRead token client method option s).2 = [].
Proof.
  unfold processRead, run.
  destruct option; cbn [defaultTo];
    try (rewrite validate_then_log_rejects by (by (left + right)); reflexivity);
    rewrite validate_then_log_passes by reflexivity;
    rewrite run_build_read; autorewrite with run;
    rewrite ?run_propOf_record, ?run_propOf_null; try reflexivity.
  all: match goal with |- context [truthy ?v] => destruct (truthy v) end;
    autorewrite with run.
  all: try (destruct (contract_ s); autorewrite with run; reflexivity).
  all: rewrite run_await;
    match goal with
    | |- context [method_read ?a ?b] => destruct (method_read a b)
    end; autorewrite with run; reflexivity.
Qed.

Lemma processRead_state token client method props s :
  (processRead token client method (VObj props) s).1.2
  = store (defaultConfigOf (isParent token))
      (merged (VObj props) (deref (defaultConfigOf (isParent token)) s)) s.
Proof.
  unfold processRead, run. cbn [defaultTo].
  rewrite validate_then_log_passes by reflexivity.
  rewrite run_build_read; autorewrite with run. rewrite run_propOf_record.
  destruct (truthy (get "returnTransaction" props)); autorewrite with run.
  - destruct (contract_ s); autorewrite with run; reflexivity.
  - rewrite run_await.
    match goal with
    | |- context [method_read ?a ?b] => destruct (method_read a b)
    end; autorewrite with run; reflexivity.
Qed.

Lemma readTransaction_record token client props s :
  readTransaction token client (VObj props) s =
  match createTransactionConfig client (VObj props) None (isParent token) true s with
  | (Ok config, s1, t1) =>
      let pre := [Log "process read"] ++ t1 ++ [Log "write tx config created"] in
      if truthy (get "returnTransaction" props)
      then (Fulfilled (RConfig config), s1, pre)
      else
        match read (getClient client (isParent token)) (deref config s1) with
        | Resolves v =>
            (Fulfilled (RValue v), s1,
             pre ++ [ClientRead (isParent token) (deref config s1)])
        | Rejects r =>
            (Rejected (Upstream r), s1,
             pre ++ [ClientRead (isParent token) (deref config s1)])
        end
  | (Fail e, s1, t1) => (Rejected e, s1, [Log "process read"] ++ t1)
  end.
Proof.
  unfold readTransaction, run. cbn [defaultTo].
  rewrite validate_then_log_passes by reflexivity.
  unfold mbind at 1, M_bind at 1.
  destruct (createTransactionConfig _ _ _ _ _ s) as [[[config|e] s1] t1];
    [|reflexivity].
  autorewrite with run. rewrite run_propOf_record.
  destruct (truthy (get "returnTransaction" props)); autorewrite with run.
  - simpl. by rewrite <- !app_assoc.
  - rewrite run_await. destruct (read _ _); autorewrite with run; simpl;
      by rewrite <- !app_assoc.
Qed.

(** ** The events of a build *)

Lemma issued_calls cur c :
  (issued cur c).1 = if truthy cur then [] else [c.1].
Proof. unfold issued. by destruct (truthy cur). Qed.

Lemma issuedCalls_builder client method isP m :
  Forall (λ ev, isResolution ev = true) (issuedCalls client method isP m).
Proof.
  unfold issuedCalls, gasLimitP, gasPriceP, nonceP, chainIdP, gasCall, countCall.
  rewrite !issued_calls. rewrite !Forall_app.
  split_and!;
    repeat match goal with
           | |- context [if truthy ?v then _ else _] => destruct (truthy v)
           | |- context [match ?m with Some _ => _ | None => _ end] => destruct m
           end; repeat constructor.
Qed.

Lemma filter_all {A} (f : A → bool) l :
  Forall (λ x, f x = true) l → List.filter f l = l.
Proof.
  induction 1 as [|x l Hx _ IH]; [reflexivity|]. simpl. by rewrite Hx, IH.
Qed.

Lemma createTransactionConfig_trace client txc method isP s :
  let m := merged txc (deref (defaultConfigOf isP) s) in
  (createTransactionConfig client txc method isP true s).2 =
    [Log "txConfig"; IsEIP1559Supported isP]
    ++ (if guardFires client isP m then []
        else issuedCalls client method isP m
             ++ match settle (gasLimitP client method isP m).2 (gasPriceP client isP m).2
                             (nonceP client isP m).2 (chainIdP client isP m).2 with
                | Ok _ => [Log "options filled"]
                | Fail _ => []
                end).
Proof.
  intros m. rewrite createTransactionConfig_write. fold m.
  destruct (guardFires client isP m); [reflexivity|].
  destruct (settle _ _ _ _) as [[[[gl gp] n] c]|e]; simpl;
    by rewrite ?app_nil_r.
Qed.

Lemma createTransactionConfig_resolutions client txc method isP s :
  let m := merged txc (deref (defaultConfigOf isP) s) in
  List.filter isResolution (createTransactionConfig client txc method isP true s).2
  = if guardFires client isP m then [] else issuedCalls client method isP m.
Proof.
  intros m. rewrite createTransactionConfig_trace. fold m.
  rewrite List.filter_app. simpl.
  destruct (guardFires client isP m); [reflexivity|].
  rewrite List.filter_app, (filter_all _ _ (issuedCalls_builder _ _ _ _)).
  destruct (settle _ _ _ _); simpl; by rewrite app_nil_r.
Qed.

Lemma createTransactionConfig_calls client txc method isP isW s :
  Forall (λ ev, isBuilderCall ev = true)
    (createTransactionConfig client txc method isP isW s).2.
Proof.
  destruct isW.
  - rewrite createTransactionConfig_trace.
    repeat (constructor; [reflexivity|]).
    destruct (guardFires _ _ _); [constructor|].
    rewrite Forall_app. split.
    + eapply Forall_impl; [apply issuedCalls_builder|].
      intros ev Hev. unfold isBuilderCall. by destruct ev.
    + destruct (settle _ _ _ _); repeat constructor.
  - rewrite createTransactionConfig_read. repeat constructor.
Qed.

(** ** What a fulfilled build leaves *)

Lemma settle_ok p1 p2 p3 p4 v1 v2 v3 v4 :
  settle p1 p2 p3 p4 = Ok (v1, v2, v3, v4) →
  p1 = Resolves v1 ∧ p2 = Resolves v2 ∧ p3 = Resolves v3 ∧ p4 = Resolves v4.
Proof. destruct p1, p2, p3, p4; simpl; intros H; by simplify_eq. Qed.

Lemma createTransactionConfig_fulfilled client txc method isP s config s' t :
  createTransactionConfig client txc method isP true s = (Ok config, s', t) →
  let m := merged txc (deref (defaultConfigOf isP) s) in
  guardFires client isP m = false
  ∧ ∃ gasLimit gasPrice nonce chainId,
      (gasLimitP client method isP m).2 = Resolves gasLimit
      ∧ (gasPriceP client isP m).2 = Resolves gasPrice
      ∧ (nonceP client isP m).2 = Resolves nonce
      ∧ (chainIdP client isP m).2 = Resolves chainId
      ∧ deref config s'
        = filled (isEIP1559Supported client isP) m gasLimit gasPrice nonce chainId.
Proof.
  intros Hrun m. rewrite createTransactionConfig_write in Hrun. fold m in Hrun.
  destruct (guardFires client isP m); [discriminate Hrun|].
  split; [reflexivity|].
  destruct (settle _ _ _ _) as [[[[gl gp] n] c]|e] eqn:Hs; [|discriminate Hrun].
  apply settle_ok in Hs as (H1 & H2 & H3 & H4).
  exists gl, gp, n, c. split_and!; try assumption.
  injection Hrun as <- <- _. apply deref_store.
Qed.

Lemma filled_lookup_other supported m gl gp n c k :
  isWrittenField k = false → filled supported m gl gp n c !! k = m !! k.
Proof.
  intros Hnot. unfold isWrittenField in Hnot.
  apply bool_decide_eq_false in Hnot. rewrite !elem_of_cons in Hnot.
  unfold filled.
  destruct supported; rewrite !lookup_insert_ne; (reflexivity || (intros <-; tauto)).
Qed.

Lemma filled_written supported m gl gp n c :
  is_Some (filled supported m gl gp n c !! "gasLimit")
  ∧ is_Some (filled supported m gl gp n c !! "nonce")
  ∧ is_Some (filled supported m gl gp n c !! "chainId")
  ∧ if supported
    then is_Some (filled supported m gl gp n c !! "maxFeePerGas")
         ∧ is_Some (filled supported m gl gp n c !! "maxPriorityFeePerGas")
    else is_Some (filled supported m gl gp n c !! "gasPrice").
Proof.
  unfold filled. destruct supported; split_and!; simplify_map_eq; eauto.
Qed.

(** ** Reading through the client *)

Lemma builder_calls_no_read l :
  Forall (λ ev, isBuilderCall ev = true) l → List.filter isClientRead l = [].
Proof.
  induction 1 as [|ev l Hev _ IH]; [reflexivity|].
  simpl. destruct ev; try discriminate Hev; exact IH.
Qed.

Lemma createTransactionConfig_returns client txc method isP isW s config s1 t1 :
  createTransactionConfig client txc method isP isW s = (Ok config, s1, t1) →
  config = defaultConfigOf isP.
Proof.
  destruct isW.
  - rewrite createTransactionConfig_write.
    destruct (guardFires _ _ _); [discriminate|].
    destruct (settle _ _ _ _) as [[[[gl gp] n] c]|e]; congruence.
  - rewrite createTransactionConfig_read. congruence.
Qed.

(** C7, as stated, fails on the scenario of the specification: the record the
    promise is fulfilled with is not the merge of the option over the
    defaults, which has the two keys of the option; the write-mode build has
    put [gasLimit], [nonce], [chainId] and the two dynamic fee fields in it. *)
Lemma read_via_client_returns_filled_config :
  ¬ returnsMergedConfig (tokenOn true) (stubWeb3 true 0)
      (<["returnTransaction" := VBool true]> {["from" := VStr "0xA"]})
      (stateWith ∅ ∅).
Proof.
  unfold returnsMergedConfig. intros H.
  specialize (H eq_refl).
  destruct (readTransaction _ _ _ _) as [[out s'] t] eqn:Hrun.
  vm_compute in Hrun. injection Hrun as <- <- <-.
  destruct H as (_ & config & Hout & Hrec).
  injection Hout as <-.
  apply (f_equal (λ o : Obj, o !! "gasLimit")) in Hrec.
  vm_compute in Hrec. discriminate Hrec.
Qed.

(** C7, amended.  With a truthy [returnTransaction] flag on a record option,
    [readTransaction] never calls the client's [read] and leaves the state as
    the write-mode build left it.  When the build is fulfilled, the promise
    is fulfilled with the built config itself, which is the default record of
    the token's chain side, the object the option was merged into: every key
    other than the six fields a build assigns holds the caller's value when
    the option has the key and the default's value otherwise, and
    [gasLimit], [nonce], [chainId] and the fee fields of the side's fee model
    ([maxFeePerGas] and [maxPriorityFeePerGas] with dynamic-fee support,
    [gasPrice] without) are present.  When the build fails, the promise is
    rejected with the build's error. *)
Theorem read_via_client_returns_config_unsent token client props s :
  truthy (get "returnTransaction" props) = true →
  let '(out, s', t) := readTransaction token client (VObj props) s in
  let '(built, sb, tb) :=
    createTransactionConfig client (VObj props) None (isParent token) true s in
  List.filter isClientRead t = []
  ∧ s' = sb
  ∧ match built with
    | Ok config =>
        out = Fulfilled (RConfig config)
        ∧ config = defaultConfigOf (isParent token)
        ∧ (∀ k, isWrittenField k = false →
             deref config s' !! k
             = match props !! k with
               | Some v => Some v
               | None => deref (defaultConfigOf (isParent token)) s !! k
               end)
        ∧ is_Some (deref config s' !! "gasLimit")
        ∧ is_Some (deref config s' !! "nonce")
        ∧ is_Some (deref config s' !! "chainId")
        ∧ (if isEIP1559Supported client (isParent token)
           then is_Some (deref config s' !! "maxFeePerGas")
                ∧ is_Some (deref config s' !! "maxPriorityFeePerGas")
           else is_Some (deref config s' !! "gasPrice"))
    | Fail e => out = Rejected e
    end.
Proof.
  intros Hflag. rewrite readTransaction_record, Hflag.
  pose proof (createTransactionConfig_calls client (VObj props) None
                (isParent token) true s) as Hcalls.
  apply builder_calls_no_read in Hcalls.
  destruct (createTransactionConfig _ _ _ _ _ s) as [[[config|e] s1] t1] eqn:Hrun;
    cbn [snd] in Hcalls.
  - pose proof (createTransactionConfig_returns _ _ _ _ _ _ _ _ _ Hrun) as Hconfig.
    apply createTransactionConfig_fulfilled in Hrun
      as (_ & gl & gp & n & c & _ & _ & _ & _ & Hbuilt).
    cbv beta iota zeta. rewrite Hbuilt.
    pose proof (filled_written (isEIP1559Supported client (isParent token))
                  (merged (VObj props) (deref (defaultConfigOf (isParent token)) s))
                  gl gp n c) as (Hgl & Hn & Hc & Hfee).
    split_and!; try reflexivity; try assumption.
    + rewrite !List.filter_app, Hcalls. reflexivity.
    + intros k Hk. rewrite filled_lookup_other by exact Hk. apply merged_lookup.
  - split_and!; try reflexivity. simpl. exact Hcalls.
Qed.

Lemma read_via_client_returns_config_unsent_witness :
  truthy (get "returnTransaction"
            (<["returnTransaction" := VBool true]> {["from" := VStr "0xA"]} : Obj)) = true
  ∧ let '(out, s', t) :=
      readTransaction (tokenOn true) (stubWeb3 true 0)
        (VObj (<["returnTransaction" := VBool true]> {["from" := VStr "0xA"]}))
        (stateWith ∅ ∅) in
    let '(built, sb, tb) :=
      createTransactionConfig (stubWeb3 true 0)
        (VObj (<["returnTransaction" := VBool true]> {["from" := VStr "0xA"]}))
        None (isParent (tokenOn true)) true (stateWith ∅ ∅) in
    List.filter isClientRead t = []
    ∧ s' = sb
    ∧ match built with
      | Ok config =>
          out = Fulfilled (RConfig config)
          ∧ config = defaultConfigOf (isParent (tokenOn true))
          ∧ (∀ k, isWrittenField k = false →
               deref config s' !! k
               = match (<["returnTransaction" := VBool true]>
                          {["from" := VStr "0xA"]} : Obj) !! k with
                 | Some v => Some v
                 | None =>
                     deref (defaultConfigOf (isParent (tokenOn true)))
                       (stateWith ∅ ∅) !! k
                 end)
          ∧ is_Some (deref config s' !! "gasLimit")
          ∧ is_Some (deref config s' !! "nonce")
          ∧ is_Some (deref config s' !! "chainId")
          ∧ (if isEIP1559Supported (stubWeb3 true 0) (isParent (tokenOn true))
             then is_Some (deref config s' !! "maxFeePerGas")
                  ∧ is_Some (deref config s' !! "maxPriorityFeePerGas")
             else is_Some (deref config s' !! "gasPrice"))
      | Fail e => out = Rejected e
      end.
Proof.
  split; [reflexivity|].
  apply (read_via_client_returns_config_unsent (tokenOn true) (stubWeb3 true 0)
           (<["returnTransaction" := VBool true]> {["from" := VStr "0xA"]})
           (stateWith ∅ ∅)).
  reflexivity.
Defined.

(** The scenario of the specification, evaluated: the promise is fulfilled
    with the parent default record, which now holds the option and the
    resolved fields, and [read] is not called. *)
Example read_via_client_scenario :
  readTransaction (tokenOn true) (stubWeb3 true 0)
    (VObj (<["returnTransaction" := VBool true]> {["from" := VStr "0xA"]}))
    (stateWith ∅ ∅)
  = (Fulfilled (RConfig ParentDefault),
     stateWith
       (<["maxPriorityFeePerGas" := VUndefined]> (<["maxFeePerGas" := VUndefined]>
          (<["chainId" := VNum 137]> (<["nonce" := VNum 5]>
             (<["gasLimit" := VNum 21000]>
                (<["returnTransaction" := VBool true]> {["from" := VStr "0xA"]}))))))
       ∅,
     [Log "process read"; Log "txConfig"; IsEIP1559Supported true;
      EstimateGas true (<["from" := VStr "0xA"]> (<["value" := VUndefined]> ∅));
      GetGasPrice true;
      GetTransactionCount true (VStr "0xA") (VStr "pending");
      GetChainId true; Log "options filled"; Log "write tx config created"]).
Proof. vm_compute. reflexivity. Qed.

(** ** Reading through a method *)

(** C3, as stated, fails on an empty option over empty defaults: a write-mode
    build resolves gas limit, gas price, nonce and chain id there, while
    [processRead] resolves nothing. *)
Lemma read_via_method_resolves_nothing_on_empty_option :
  ¬ readViaMethodUsesWritePath (tokenOn true) (stubWeb3 true 0) stubMethod
      (VObj ∅) (stateWith ∅ ∅).
Proof. unfold readViaMethodUsesWritePath. vm_compute. discriminate. Qed.

(** C3, amended: [processRead] builds its config in read mode.  Whatever the
    option, it issues no resolution of gas limit, gas price, nonce or chain
    id, and on a record option it leaves in the default record of the token's
    side exactly the merge of the option over the defaults.  Only
    [readTransaction] goes through the write-mode path: on a record option it
    issues the resolutions the write-mode builder issues. *)
Theorem read_via_method_builds_in_read_mode token client method :
  (∀ option s,
     List.filter isResolution (processRead token client method option s).2 = [])
  ∧ (∀ props s,
       deref (defaultConfigOf (isParent token))
         (processRead token client method (VObj props) s).1.2
       = merged (VObj props) (deref (defaultConfigOf (isParent token)) s))
  ∧ (∀ props s,
       List.filter isResolution (readTransaction token client (VObj props) s).2
       = List.filter isResolution
           (createTransactionConfig client (VObj props) None (isParent token) true s).2).
Proof.
  split_and!.
  - apply processRead_no_resolution.
  - intros props s. by rewrite processRead_state, deref_store.
  - intros props s. rewrite readTransaction_record.
    destruct (createTransactionConfig _ _ _ _ _ s) as [[[config|e] s1] t1];
      cbn [snd]; [|reflexivity].
    destruct (truthy (get "returnTransaction" props)).
    + cbn [snd]. rewrite !List.filter_app. simpl. by rewrite app_nil_r.
    + destruct (read _ _); cbn [snd]; rewrite !List.filter_app; simpl;
        by rewrite !app_nil_r.
Qed.

(** ** The fee fields of a built config *)

Lemma issued_promise cur c v :
  (issued cur c).2 = Resolves v →
  if truthy cur then v = cur else c.2 = Resolves v.
Proof. unfold issued. destruct (truthy cur); simpl; congruence. Qed.

Lemma Number_safeInteger v n : safeInteger v = Some n → Number v = VNum n.
Proof.
  destruct v as [| | |z| |str| | |]; try discriminate; simpl.
  - case_bool_decide; congruence.
  - unfold Number_of_string.
    destruct (DecimalString.NilEmpty.uint_of_string str); [|discriminate].
    case_bool_decide; congruence.
Qed.

(** C2, as stated, fails in three ways, none of which depends on the side
    being the child.  Without support, a [maxFeePerGas] given by the caller
    stays in the built config next to [gasPrice]; without support, a gas
    price given as a string that is not a numeral gives the built config the
    gas price [NaN]; with support and an empty option, a [gasPrice] held by
    the side's defaults stays in the built config. *)
Lemma fee_representation_not_exclusive :
  ¬ oneFeeRepresentation (stubWeb3 false 0)
      (VObj {["maxFeePerGas" := VNum 10]}) None true (stateWith ∅ ∅)
  ∧ ¬ oneFeeRepresentation (stubWeb3 false 0)
        (VObj {["gasPrice" := VStr "fast"]}) None true (stateWith ∅ ∅)
  ∧ ¬ oneFeeRepresentation (stubWeb3 true 0)
        (VObj ∅) None true (stateWith {["gasPrice" := VNum 5]} ∅).
Proof.
  unfold oneFeeRepresentation. split_and!; vm_compute.
  - intros (_ & H & _). discriminate H.
  - intros (H & _). discriminate H.
  - intros H. destruct (H eq_refl) as (_ & _ & H'). discriminate H'.
Qed.

(** C2, amended: in a config built in write mode the fee fields are written
    according to the side's dynamic-fee support alone, and no field is ever
    removed.  Without support the config has a [gasPrice] field, written from
    the resolved gas price (the merged config's own when truthy, else what
    [getGasPrice] resolved with): when that value is a safe integer, given as
    a number or as a string of decimal digits, the field is that integer; and
    the two dynamic fee fields are as the merged config has them.  With
    support, [maxFeePerGas] and [maxPriorityFeePerGas] are set to the merged
    config's values ([undefined] when it has none), and [gasPrice] is as the
    merged config has it. *)
Theorem fee_fields_follow_support client txConfig method isP s config s' t :
  createTransactionConfig client txConfig method isP true s = (Ok config, s', t) →
  let m := merged txConfig (deref (defaultConfigOf isP) s) in
  let built := deref config s' in
  if isEIP1559Supported client isP
  then built !! "maxFeePerGas" = Some (get "maxFeePerGas" m)
       ∧ built !! "maxPriorityFeePerGas" = Some (get "maxPriorityFeePerGas" m)
       ∧ built !! "gasPrice" = m !! "gasPrice"
  else (∃ gasPrice,
          (if truthy (get "gasPrice" m) then gasPrice = get "gasPrice" m
           else getGasPrice (getClient client isP) = Resolves gasPrice)
          ∧ is_Some (built !! "gasPrice")
          ∧ (∀ n, safeInteger gasPrice = Some n →
                  built !! "gasPrice" = Some (VNum n)))
       ∧ built !! "maxFeePerGas" = m !! "maxFeePerGas"
       ∧ built !! "maxPriorityFeePerGas" = m !! "maxPriorityFeePerGas".
Proof.
  intros Hrun m built.
  apply createTransactionConfig_fulfilled in Hrun
    as (_ & gl & gp & n & c & _ & Hgp & _ & _ & Hbuilt).
  fold m in Hgp, Hbuilt. subst built. rewrite Hbuilt. unfold filled.
  destruct (isEIP1559Supported client isP).
  - split_and!; by simplify_map_eq.
  - split_and!; [|by simplify_map_eq..].
    exists gp. split_and!.
    + apply issued_promise in Hgp. exact Hgp.
    + simplify_map_eq. eauto.
    + intros k Hk. apply Number_safeInteger in Hk. rewrite <- Hk.
      by simplify_map_eq.
Qed.

Lemma fee_fields_follow_support_witness :
  createTransactionConfig (stubWeb3 false 0)
    (VObj {["maxFeePerGas" := VNum 10]}) None true true (stateWith ∅ ∅)
  = (Ok ParentDefault,
     stateWith
       (<["gasPrice" := VNum 7]> (<["chainId" := VNum 137]>
          (<["nonce" := VNum 5]> (<["gasLimit" := VNum 21000]>
             {["maxFeePerGas" := VNum 10]})))) ∅,
     [Log "txConfig"; IsEIP1559Supported true;
      EstimateGas true (<["from" := VUndefined]> (<["value" := VUndefined]> ∅));
      GetGasPrice true;
      GetTransactionCount true VUndefined (VStr "pending");
      GetChainId true; Log "options filled"])
  ∧ let m := merged (VObj {["maxFeePerGas" := VNum 10]})
               (deref (defaultConfigOf true) (stateWith ∅ ∅)) in
    let built : Obj :=
      <["gasPrice" := VNum 7]> (<["chainId" := VNum 137]>
        (<["nonce" := VNum 5]> (<["gasLimit" := VNum 21000]>
           {["maxFeePerGas" := VNum 10]}))) in
    (∃ gasPrice,
       (if truthy (get "gasPrice" m) then gasPrice = get "gasPrice" m
        else getGasPrice (getClient (stubWeb3 false 0) true) = Resolves gasPrice)
       ∧ is_Some (built !! "gasPrice")
       ∧ (∀ n, safeInteger gasPrice = Some n →
               built !! "gasPrice" = Some (VNum n)))
    ∧ built !! "maxFeePerGas" = m !! "maxFeePerGas"
    ∧ built !! "maxPriorityFeePerGas" = m !! "maxPriorityFeePerGas".
Proof.
  assert (createTransactionConfig (stubWeb3 false 0)
            (VObj {["maxFeePerGas" := VNum 10]}) None true true (stateWith ∅ ∅)
          = (Ok ParentDefault,
             stateWith
               (<["gasPrice" := VNum 7]> (<["chainId" := VNum 137]>
                  (<["nonce" := VNum 5]> (<["gasLimit" := VNum 21000]>
                     {["maxFeePerGas" := VNum 10]})))) ∅,
             [Log "txConfig"; IsEIP1559Supported true;
              EstimateGas true
                (<["from" := VUndefined]> (<["value" := VUndefined]> ∅));
              GetGasPrice true;
              GetTransactionCount true VUndefined (VStr "pending");
              GetChainId true; Log "options filled"])) as Hrun
    by (vm_compute; reflexivity).
  split; [exact Hrun|].
  exact (fee_fields_follow_support _ _ _ _ _ _ _ _ Hrun).
Defined.

(** ** Which fields a build resolves *)

Lemma get_merged_caller props target k :
  truthy (get k props) = true →
  get k (merged (VObj props) target) = get k props.
Proof.
  unfold merged, Object_assign, get. cbn [truthy ownProps].
  destruct (props !! k) as [v|] eqn:Hk; [|discriminate].
  intros _. by rewrite (lookup_union_Some_l _ _ _ _ Hk).
Qed.

Lemma issuedCalls_limit_nonce_chain client method isP m :
  truthy (get "gasLimit" m) = true → truthy (get "nonce" m) = true →
  truthy (get "chainId" m) = true →
  issuedCalls client method isP m
  = if truthy (get "gasPrice" m) then [] else [GetGasPrice isP].
Proof.
  intros H1 H2 H3.
  unfold issuedCalls, gasLimitP, gasPriceP, nonceP, chainIdP.
  rewrite !issued_calls, H1, H2, H3. simpl.
  by destruct (truthy (get "gasPrice" m)).
Qed.

Lemma issuedCalls_gas_price client method isP m :
  List.filter isGetGasPrice (issuedCalls client method isP m)
  = if truthy (get "gasPrice" m) then [] else [GetGasPrice isP].
Proof.
  unfold issuedCalls, gasLimitP, gasPriceP, nonceP, chainIdP, gasCall, countCall.
  rewrite !issued_calls, !List.filter_app.
  destruct method, (truthy (get "gasLimit" m)), (truthy (get "gasPrice" m)),
    (truthy (get "nonce" m)), (truthy (get "chainId" m)); reflexivity.
Qed.

Lemma createTransactionConfig_filter (f : Event → bool) client txc method isP s :
  (∀ msg, f (Log msg) = false) → (∀ side, f (IsEIP1559Supported side) = false) →
  let m := merged txc (deref (defaultConfigOf isP) s) in
  List.filter f (createTransactionConfig client txc method isP true s).2
  = if guardFires client isP m then []
    else List.filter f (issuedCalls client method isP m).
Proof.
  intros Hlog Hsup m. rewrite createTransactionConfig_trace. fold m.
  rewrite List.filter_app. simpl. rewrite Hlog, Hsup. simpl.
  destruct (guardFires client isP m); [reflexivity|].
  rewrite List.filter_app.
  destruct (settle _ _ _ _); simpl; rewrite ?Hlog; by rewrite app_nil_r.
Qed.

(** C6, as stated, fails in two ways.  A nonce of 0 given by the caller is
    resolved again through [getTransactionCount]; and when the side's
    defaults hold a gas price, the gas price the caller omitted is not
    resolved through [getGasPrice]. *)
Lemma supplied_zero_nonce_is_resolved :
  ¬ suppliedFieldsNotResolved (stubWeb3 false 0)
      (<["gasLimit" := VNum 21000]> (<["nonce" := VNum 0]> {["chainId" := VNum 137]}))
      None true (stateWith ∅ ∅)
  ∧ ¬ suppliedFieldsNotResolved (stubWeb3 false 0)
        (<["gasLimit" := VNum 21000]> (<["nonce" := VNum 8]> {["chainId" := VNum 137]}))
        None true (stateWith {["gasPrice" := VNum 5]} ∅).
Proof.
  unfold suppliedFieldsNotResolved. split; vm_compute.
  - intros H. destruct (H eq_refl eq_refl eq_refl) as [H' _]. discriminate H'.
  - intros H. destruct (H eq_refl eq_refl eq_refl) as [_ H'].
    specialize (H' eq_refl). discriminate H'.
Qed.

Lemma get_merged_supplied props target k :
  has k props = true → get k (merged (VObj props) target) = get k props.
Proof.
  unfold has, get. intros Hk. apply bool_decide_eq_true in Hk as [v Hv].
  by rewrite merged_lookup, Hv.
Qed.

Lemma issuedCalls_gas_estimate client method isP m :
  List.filter isGasEstimate (issuedCalls client method isP m)
  = if truthy (get "gasLimit" m) then [] else [(gasCall client method isP m).1].
Proof.
  unfold issuedCalls, gasLimitP, gasPriceP, nonceP, chainIdP, gasCall, countCall.
  rewrite !issued_calls, !List.filter_app.
  destruct method, (truthy (get "gasLimit" m)), (truthy (get "gasPrice" m)),
    (truthy (get "nonce" m)), (truthy (get "chainId" m)); reflexivity.
Qed.

Lemma issuedCalls_transaction_count client method isP m :
  List.filter isGetTransactionCount (issuedCalls client method isP m)
  = if truthy (get "nonce" m) then [] else [(countCall client isP m).1].
Proof.
  unfold issuedCalls, gasLimitP, gasPriceP, nonceP, chainIdP, gasCall, countCall.
  rewrite !issued_calls, !List.filter_app.
  destruct method, (truthy (get "gasLimit" m)), (truthy (get "gasPrice" m)),
    (truthy (get "nonce" m)), (truthy (get "chainId" m)); reflexivity.
Qed.

Lemma issuedCalls_chain_id client method isP m :
  List.filter isGetChainId (issuedCalls client method isP m)
  = if truthy (get "chainId" m) then [] else [GetChainId isP].
Proof.
  unfold issuedCalls, gasLimitP, gasPriceP, nonceP, chainIdP, gasCall, countCall.
  rewrite !issued_calls, !List.filter_app.
  destruct method, (truthy (get "gasLimit" m)), (truthy (get "gasPrice" m)),
    (truthy (get "nonce" m)), (truthy (get "chainId" m)); reflexivity.
Qed.

(** C6, amended.  When the caller gives truthy values for gas limit, nonce
    and chain id, a write-mode build issues no call to [estimateGas] (of the
    client or of the method), [getTransactionCount] or [getChainId]; when
    moreover the merged config has no truthy gas price and the build is not
    stopped by the fee-market guard, the one resolution it issues is
    [getGasPrice].  A 0 or other falsy value given by the caller counts as
    missing: unless the fee-market guard stops the build, the field is
    resolved again, by exactly one call of [estimateGas],
    [getTransactionCount] or [getChainId] respectively. *)
Theorem truthy_fields_not_resolved client props method isP s :
  let m := merged (VObj props) (deref (defaultConfigOf isP) s) in
  let t := (createTransactionConfig client (VObj props) method isP true s).2 in
  (truthy (get "gasLimit" props) = true →
   truthy (get "nonce" props) = true →
   truthy (get "chainId" props) = true →
   List.filter isLimitNonceChain t = []
   ∧ (truthy (get "gasPrice" m) = false → guardFires client isP m = false →
      List.filter isResolution t = [GetGasPrice isP]))
  ∧ (guardFires client isP m = false →
     (has "gasLimit" props = true → truthy (get "gasLimit" props) = false →
      List.filter isGasEstimate t = [(gasCall client method isP m).1])
     ∧ (has "nonce" props = true → truthy (get "nonce" props) = false →
        List.filter isGetTransactionCount t
        = [GetTransactionCount isP (get "from" m) (VStr "pending")])
     ∧ (has "chainId" props = true → truthy (get "chainId" props) = false →
        List.filter isGetChainId t = [GetChainId isP])).
Proof.
  intros m t. subst t. split.
  - intros H1 H2 H3.
    assert (issuedCalls client method isP m
            = if truthy (get "gasPrice" m) then [] else [GetGasPrice isP]) as Hcalls.
    { apply issuedCalls_limit_nonce_chain; unfold m;
        by rewrite get_merged_caller. }
    split.
    + rewrite createTransactionConfig_filter by reflexivity. fold m.
      rewrite Hcalls.
      by destruct (guardFires client isP m), (truthy (get "gasPrice" m)).
    + intros Hgp Hguard. rewrite createTransactionConfig_resolutions. fold m.
      by rewrite Hguard, Hcalls, Hgp.
  - intros Hguard. split_and!; intros Hhas Hfalsy;
      rewrite createTransactionConfig_filter by reflexivity; fold m;
      rewrite Hguard.
    + rewrite issuedCalls_gas_estimate. unfold m at 1.
      by rewrite get_merged_supplied, Hfalsy.
    + rewrite issuedCalls_transaction_count. unfold m at 1.
      by rewrite get_merged_supplied, Hfalsy.
    + rewrite issuedCalls_chain_id. unfold m at 1.
      by rewrite get_merged_supplied, Hfalsy.
Qed.

Lemma truthy_fields_not_resolved_witness :
  ((truthy (get "gasLimit"
              (<["gasLimit" := VNum 21000]> (<["nonce" := VNum 8]>
                 {["chainId" := VNum 137]}) : Obj)) = true
    ∧ truthy (get "nonce"
                (<["gasLimit" := VNum 21000]> (<["nonce" := VNum 8]>
                   {["chainId" := VNum 137]}) : Obj)) = true
    ∧ truthy (get "chainId"
                (<["gasLimit" := VNum 21000]> (<["nonce" := VNum 8]>
                   {["chainId" := VNum 137]}) : Obj)) = true)
   ∧ List.filter isLimitNonceChain
       (createTransactionConfig (stubWeb3 false 0)
          (VObj (<["gasLimit" := VNum 21000]> (<["nonce" := VNum 8]>
                   {["chainId" := VNum 137]})))
          None true true (stateWith ∅ ∅)).2 = []
   ∧ List.filter isResolution
       (createTransactionConfig (stubWeb3 false 0)
          (VObj (<["gasLimit" := VNum 21000]> (<["nonce" := VNum 8]>
                   {["chainId" := VNum 137]})))
          None true true (stateWith ∅ ∅)).2 = [GetGasPrice true])
  ∧ (guardFires (stubWeb3 false 0) true
       (merged (VObj (<["gasLimit" := VNum 21000]> (<["nonce" := VNum 0]>
                        {["chainId" := VNum 137]})))
          (deref (defaultConfigOf true) (stateWith ∅ ∅))) = false
     ∧ has "nonce" (<["gasLimit" := VNum 21000]> (<["nonce" := VNum 0]>
                      {["chainId" := VNum 137]}) : Obj) = true
     ∧ truthy (get "nonce" (<["gasLimit" := VNum 21000]> (<["nonce" := VNum 0]>
                              {["chainId" := VNum 137]}) : Obj)) = false)
  ∧ List.filter isGetTransactionCount
      (createTransactionConfig (stubWeb3 false 0)
         (VObj (<["gasLimit" := VNum 21000]> (<["nonce" := VNum 0]>
                  {["chainId" := VNum 137]})))
         None true true (stateWith ∅ ∅)).2
    = [GetTransactionCount true VUndefined (VStr "pending")].
Proof.
  pose proof (truthy_fields_not_resolved (stubWeb3 false 0)
                (<["gasLimit" := VNum 21000]> (<["nonce" := VNum 8]>
                   {["chainId" := VNum 137]}))
                None true (stateWith ∅ ∅)) as Ht.
  pose proof (truthy_fields_not_resolved (stubWeb3 false 0)
                (<["gasLimit" := VNum 21000]> (<["nonce" := VNum 0]>
                   {["chainId" := VNum 137]}))
                None true (stateWith ∅ ∅)) as Hf.
  cbv zeta in Ht, Hf.
  destruct Ht as [Ht _]. destruct Hf as [_ Hf].
  destruct (Ht eq_refl eq_refl eq_refl) as [H1 H2].
  destruct (Hf eq_refl) as (_ & Hn & _).
  split; [split; [split_and!; reflexivity | split; [exact H1 | apply H2; reflexivity]]|].
  split; [split_and!; reflexivity | exact (Hn eq_refl eq_refl)].
Defined.

(** The witness input, evaluated: [getGasPrice] is the only resolution. *)
Example supplied_fields_scenario :
  (createTransactionConfig (stubWeb3 false 0)
     (VObj (<["gasLimit" := VNum 21000]> (<["nonce" := VNum 8]>
              {["chainId" := VNum 137]})))
     None true true (stateWith ∅ ∅)).2
  = [Log "txConfig"; IsEIP1559Supported true; GetGasPrice true;
     Log "options filled"].
Proof. vm_compute. reflexivity. Qed.

(** C10, as stated, fails in two ways.  With a gas price in the side's
    defaults and none from the caller, [getGasPrice] is not invoked; and on
    the child side with support, an option carrying [maxFeePerGas] stops the
    build at the guard before [getGasPrice] is invoked. *)
Lemma omitted_gas_price_not_always_fetched :
  ¬ gasPriceFetchedAndDropped (stubWeb3 true 0) ∅ None true
      (stateWith {["gasPrice" := VNum 5]} ∅)
  ∧ ¬ gasPriceFetchedAndDropped (stubWeb3 true 0) {["maxFeePerGas" := VNum 10]}
        None false (stateWith ∅ ∅).
Proof.
  unfold gasPriceFetchedAndDropped. split; vm_compute;
    intros H; destruct (H eq_refl) as [H' _]; discriminate H'.
Qed.

(** C10, amended: in a write-mode build whose merged config has no truthy
    gas price and which is not stopped by the fee-market guard,
    [getGasPrice] is invoked exactly once, whether or not the side supports
    the dynamic fee market; with support the resolved value is dropped, the
    built config's [gasPrice] being what the merged config had. *)
Theorem gas_price_fetched_then_dropped client txConfig method isP s :
  let m := merged txConfig (deref (defaultConfigOf isP) s) in
  truthy (get "gasPrice" m) = false →
  guardFires client isP m = false →
  match createTransactionConfig client txConfig method isP true s with
  | (r, s', t) =>
      List.filter isGetGasPrice t = [GetGasPrice isP]
      ∧ (isEIP1559Supported client isP = true →
         ∀ config, r = Ok config → deref config s' !! "gasPrice" = m !! "gasPrice")
  end.
Proof.
  intros m Hgp Hguard.
  pose proof (createTransactionConfig_filter isGetGasPrice client txConfig method
                isP s (λ _, eq_refl) (λ _, eq_refl)) as Hcalls.
  cbv zeta in Hcalls. fold m in Hcalls.
  rewrite Hguard, issuedCalls_gas_price, Hgp in Hcalls.
  destruct (createTransactionConfig _ _ _ _ _ s) as [[r s'] t] eqn:Hrun.
  split; [exact Hcalls|].
  intros Hsup config ->.
  apply createTransactionConfig_fulfilled in Hrun
    as (_ & gl & gp & n & c & _ & _ & _ & _ & Hbuilt).
  fold m in Hbuilt. rewrite Hbuilt, Hsup. unfold filled. by simplify_map_eq.
Qed.

Lemma gas_price_fetched_then_dropped_witness :
  (truthy (get "gasPrice"
             (merged (VObj {["from" := VStr "0xA"]})
                (deref (defaultConfigOf true) (stateWith ∅ ∅)))) = false
   ∧ guardFires (stubWeb3 true 0) true
       (merged (VObj {["from" := VStr "0xA"]})
          (deref (defaultConfigOf true) (stateWith ∅ ∅))) = false)
  ∧ match createTransactionConfig (stubWeb3 true 0)
            (VObj {["from" := VStr "0xA"]}) None true true (stateWith ∅ ∅) with
    | (r, s', t) =>
        List.filter isGetGasPrice t = [GetGasPrice true]
        ∧ (isEIP1559Supported (stubWeb3 true 0) true = true →
           ∀ config, r = Ok config →
             deref config s' !! "gasPrice"
             = merged (VObj {["from" := VStr "0xA"]})
                 (deref (defaultConfigOf true) (stateWith ∅ ∅)) !! "gasPrice")
    end.
Proof.
  split; [split; reflexivity|].
  apply (gas_price_fetched_then_dropped (stubWeb3 true 0)
           (VObj {["from" := VStr "0xA"]}) None true (stateWith ∅ ∅));
    reflexivity.
Defined.

(** ** The contract lazy-loader *)

Lemma getContract_memoized token client s contract :
  contract_ s = Some contract →
  getContract token client s = (Fulfilled contract, s, []).
Proof.
  intros Hmemo. unfold getContract, run, getContract_call.
  cbn [mret M_ret]. autorewrite with run. rewrite Hmemo.
  by autorewrite with run.
Qed.

Lemma getContract_first token client s :
  contract_ s = None →
  getContract token client s =
    match getABI client (name token) (bridgeType token) with
    | Resolves abi =>
        let contract :=
          client_getContract (getClient client (isParent token)) (address token) abi in
        (Fulfilled contract,
         {| parentDefaultConfig := parentDefaultConfig s;
            childDefaultConfig := childDefaultConfig s;
            contract_ := Some contract |},
         [GetABI (name token) (bridgeType token);
          GetContract (isParent token) (address token) abi])
    | Rejects reason =>
        (Rejected (Upstream reason), s, [GetABI (name token) (bridgeType token)])
    end.
Proof.
  intros Hmemo. unfold getContract, run, getContract_call, getContract_then,
    getContract_.
  cbn [mret M_ret]. autorewrite with run. rewrite Hmemo.
  autorewrite with run. rewrite run_await.
  destruct (getABI _ _ _); [|reflexivity].
  autorewrite with run. reflexivity.
Qed.

(** [getContract] is the two turns run back to back. *)
Lemma getContract_is_call_then_settle token client s :
  interleave token [Calls; AbiSettles client] 0 s =
    match getContract token client s with
    | (o, s', t) => ([o], s', t)
    end.
Proof.
  destruct (contract_ s) as [contract|] eqn:Hmemo.
  - rewrite (getContract_memoized _ _ _ _ Hmemo).
    cbn [interleave]. unfold getContract_call. autorewrite with run.
    by rewrite Hmemo.
  - rewrite (getContract_first _ _ _ Hmemo).
    cbn [interleave]. unfold getContract_call, getContract_then, getContract_.
    autorewrite with run. rewrite Hmemo. autorewrite with run.
    cbn [mret M_ret after]. rewrite run_await.
    destruct (getABI _ _ _); [|reflexivity].
    autorewrite with run. reflexivity.
Qed.

Lemma getContract_each_memoized token clients s contract :
  contract_ s = Some contract →
  getContract_each token clients s
  = (map (λ _, (Fulfilled contract, [])) clients, s).
Proof.
  intros Hmemo. induction clients as [|client rest IH]; [reflexivity|].
  simpl. by rewrite (getContract_memoized _ _ _ _ Hmemo), IH.
Qed.

Lemma abiFetches_memoized {A} (contract : BaseContract) (l : list A) :
  abiFetchesOfFulfilled (map (λ _, (Fulfilled contract, [])) l) = 0%nat.
Proof. induction l as [|x l IH]; [reflexivity|]. simpl. exact IH. Qed.

Lemma lookup_memoized {A} (contract : BaseContract) (l : list A) j :
  (j < length l)%nat →
  map (λ _, (Fulfilled contract, @nil Event)) l !! j = Some (Fulfilled contract, []).
Proof.
  intros Hj. rewrite list_lookup_fmap.
  destruct (lookup_lt_is_Some_2 l j Hj) as [x ->]. reflexivity.
Qed.

Lemma lookup_memoized_inv {A} (contract : BaseContract) (l : list A) i c t :
  map (λ _, (Fulfilled contract, @nil Event)) l !! i = Some (Fulfilled c, t) →
  c = contract ∧ t = [].
Proof.
  rewrite list_lookup_fmap. destruct (l !! i); simpl; intros H; by simplify_eq.
Qed.

Lemma getContract_each_cons token client rest s :
  getContract_each token (client :: rest) s =
    match getContract token client s with
    | (o, s1, t) =>
        match getContract_each token rest s1 with
        | (os, s2) => ((o, t) :: os, s2)
        end
    end.
Proof. reflexivity. Qed.

(** C8, as stated, fails when two calls overlap: both find no memoised
    contract, both fetch the ABI, and both are fulfilled. *)
Lemma overlapping_calls_fetch_twice :
  ¬ memoizedAcrossCalls (tokenOn true)
      [Calls; Calls; AbiSettles (stubWeb3 true 1); AbiSettles (stubWeb3 true 2); Calls]
      (stateWith ∅ ∅).
Proof.
  unfold memoizedAcrossCalls. vm_compute. intros H.
  destruct (H eq_refl) as [Hle _]. inversion Hle as [|? Hle']. inversion Hle'.
Qed.

(** The same schedule, evaluated: two ABI fetches, two contract instances,
    and the call made after both settled gets the second instance. *)
Example overlapping_calls_scenario :
  interleave (tokenOn true)
    [Calls; Calls; AbiSettles (stubWeb3 true 1); AbiSettles (stubWeb3 true 2); Calls]
    0 (stateWith ∅ ∅)
  = ([Fulfilled {| contract_instance := 1; contract_address := VStr "0xToken" |};
      Fulfilled {| contract_instance := 2; contract_address := VStr "0xToken" |};
      Fulfilled {| contract_instance := 2; contract_address := VStr "0xToken" |}],
     {| parentDefaultConfig := ∅; childDefaultConfig := ∅;
        contract_ := Some {| contract_instance := 2;
                             contract_address := VStr "0xToken" |} |},
     [GetABI (VStr "ChildERC20") (VStr "pos");
      GetABI (VStr "ChildERC20") (VStr "pos");
      GetContract true (VStr "0xToken") (VStr "abi");
      GetContract true (VStr "0xToken") (VStr "abi")]).
Proof. vm_compute. reflexivity. Qed.

Lemma getContract_call_memoized token s contract :
  contract_ s = Some contract →
  getContract_call token s = (Ok (Some contract), s, []).
Proof.
  intros Hmemo. unfold getContract_call. autorewrite with run.
  rewrite Hmemo. reflexivity.
Qed.

(** Once the memo is set no schedule fetches the ABI again, pending promises
    or not. *)
Lemma interleave_no_fetch_once_memoized token turns :
  ∀ pending s contract,
    contract_ s = Some contract →
    List.filter isGetABI (interleave token turns pending s).2 = [].
Proof.
  induction turns as [|turn rest IH]; intros pending s contract Hmemo;
    [reflexivity|].
  destruct turn as [|client]; cbn [interleave].
  - rewrite (getContract_call_memoized _ _ _ Hmemo).
    specialize (IH pending s contract Hmemo).
    destruct (interleave token rest pending s) as [[os s2] t2].
    exact IH.
  - destruct pending as [|pending]; [by eapply IH|].
    unfold getContract_then, getContract_. rewrite run_await.
    destruct (getABI client (name token) (bridgeType token)) as [abi|reason].
    + autorewrite with run. cbn [mret M_ret after settled].
      match goal with
      | |- context [interleave token rest pending ?s1] =>
          specialize (IH pending s1 _ eq_refl);
          destruct (interleave token rest pending s1) as [[os s2] t2]
      end.
      exact IH.
    + cbn [settled]. specialize (IH pending s contract Hmemo).
      destruct (interleave token rest pending s) as [[os s2] t2].
      exact IH.
Qed.

Lemma getContract_each_without_overlap token clients :
  ∀ s,
    (abiFetchesOfFulfilled (getContract_each token clients s).1 ≤ 1)%nat
    ∧ ∀ i j contract t,
        (getContract_each token clients s).1 !! i = Some (Fulfilled contract, t) →
        (i < j < length clients)%nat →
        (getContract_each token clients s).1 !! j = Some (Fulfilled contract, []).
Proof.
  induction clients as [|client rest IH]; intros s.
  - split; [simpl; lia|]. intros i j contract t _ Hj. simpl in Hj. lia.
  - destruct (contract_ s) as [memo|] eqn:Hmemo.
    + rewrite (getContract_each_memoized _ _ _ _ Hmemo). cbn [fst].
      split; [rewrite abiFetches_memoized; lia|].
      intros i j contract t Hi Hj.
      apply lookup_memoized_inv in Hi as [-> _].
      apply lookup_memoized. lia.
    + rewrite getContract_each_cons, (getContract_first _ _ _ Hmemo).
      destruct (getABI client (name token) (bridgeType token)) as [abi|reason].
      * cbv beta iota zeta.
        rewrite (getContract_each_memoized token rest _
                   (client_getContract (getClient client (isParent token))
                      (address token) abi)) by reflexivity.
        cbn [fst]. split.
        { cbn [abiFetchesOfFulfilled isFulfilled List.filter isGetABI length].
          rewrite abiFetches_memoized. lia. }
        intros i j contract t Hi Hj. cbn [length] in Hj.
        destruct j as [|j]; [lia|]. cbn [lookup list_lookup].
        assert (contract = client_getContract (getClient client (isParent token))
                             (address token) abi) as ->.
        { destruct i as [|i]; cbn [lookup list_lookup] in Hi; [by simplify_eq|].
          by apply lookup_memoized_inv in Hi as [-> _]. }
        apply lookup_memoized. lia.
      * cbv beta iota zeta.
        destruct (getContract_each token rest s) as [calls s'] eqn:Heach.
        specialize (IH s). rewrite Heach in IH. cbn [fst] in IH |- *.
        destruct IH as [IHn IHl]. split; [exact IHn|].
        intros i j contract t Hi Hj. cbn [length] in Hj.
        destruct i as [|i]; [cbn [lookup list_lookup] in Hi; by simplify_eq|].
        destruct j as [|j]; [lia|]. cbn [lookup list_lookup] in Hi |- *.
        apply (IHl i j contract t Hi). lia.
Qed.

Lemma interleave_call_unmemoized token turns pending s :
  contract_ s = None →
  interleave token (Calls :: turns) pending s
  = match interleave token turns (S pending) s with
    | (outs, s', t) => (outs, s', GetABI (name token) (bridgeType token) :: t)
    end.
Proof.
  intros Hmemo. cbn [interleave]. unfold getContract_call.
  autorewrite with run. rewrite Hmemo. autorewrite with run.
  cbn [mret M_ret after]. by destruct (interleave token turns (S pending) s) as [[os s2] t2].
Qed.

Lemma interleave_fetch_fulfilled token client turns pending s abi :
  getABI client (name token) (bridgeType token) = Resolves abi →
  interleave token (AbiSettles client :: turns) (S pending) s
  = let contract :=
      client_getContract (getClient client (isParent token)) (address token) abi in
    match interleave token turns pending
            {| parentDefaultConfig := parentDefaultConfig s;
               childDefaultConfig := childDefaultConfig s;
               contract_ := Some contract |} with
    | (outs, s', t) =>
        (Fulfilled contract :: outs, s',
         GetContract (isParent token) (address token) abi :: t)
    end.
Proof.
  intros Habi. cbn [interleave]. unfold getContract_then, getContract_.
  rewrite run_await, Habi. autorewrite with run. cbn [mret M_ret after settled].
  cbv zeta. by destruct (interleave token turns pending _) as [[os s2] t2].
Qed.

(** C8, amended.  A call of [getContract()] made once the memo is set is
    fulfilled with the memoised contract, changes nothing and makes no call;
    and from then on no schedule of calls and settlements fetches the ABI
    again.  When the calls do not overlap, the calls that are fulfilled
    fetch the ABI at most once between them, and once a call has been
    fulfilled with a contract, every later call is fulfilled with that same
    contract and makes no call at all.  Calls that overlap are not bound by
    this: a call made while the memo is not set issues an ABI fetch even
    when earlier fetches are still pending, and every fetch that is
    fulfilled builds a contract and stores it as the memo, replacing what
    was stored before. *)
Theorem getContract_memoizes token :
  (∀ client s contract,
     contract_ s = Some contract →
     getContract token client s = (Fulfilled contract, s, []))
  ∧ (∀ turns pending s contract,
       contract_ s = Some contract →
       List.filter isGetABI (interleave token turns pending s).2 = [])
  ∧ (∀ clients s,
       (abiFetchesOfFulfilled (getContract_each token clients s).1 ≤ 1)%nat
       ∧ ∀ i j contract t,
           (getContract_each token clients s).1 !! i = Some (Fulfilled contract, t) →
           (i < j < length clients)%nat →
           (getContract_each token clients s).1 !! j = Some (Fulfilled contract, []))
  ∧ (∀ turns pending s,
       contract_ s = None →
       interleave token (Calls :: turns) pending s
       = match interleave token turns (S pending) s with
         | (outs, s', t) => (outs, s', GetABI (name token) (bridgeType token) :: t)
         end)
  ∧ (∀ client turns pending s abi,
       getABI client (name token) (bridgeType token) = Resolves abi →
       interleave token (AbiSettles client :: turns) (S pending) s
       = let contract :=
           client_getContract (getClient client (isParent token)) (address token) abi in
         match interleave token turns pending
                 {| parentDefaultConfig := parentDefaultConfig s;
                    childDefaultConfig := childDefaultConfig s;
                    contract_ := Some contract |} with
         | (outs, s', t) =>
             (Fulfilled contract :: outs, s',
              GetContract (isParent token) (address token) abi :: t)
         end).
Proof.
  split_and!.
  - intros client s contract. apply getContract_memoized.
  - intros turns. apply interleave_no_fetch_once_memoized.
  - intros clients. apply getContract_each_without_overlap.
  - intros turns pending s. apply interleave_call_unmemoized.
  - intros client turns pending s abi. apply interleave_fetch_fulfilled.
Qed.

Lemma getContract_memoizes_witness :
  (1 < 2 < length [stubWeb3Down; stubWeb3 true 1; stubWeb3 true 2])%nat
  ∧ (getContract_each (tokenOn true)
       [stubWeb3Down; stubWeb3 true 1; stubWeb3 true 2] (stateWith ∅ ∅)).1 !! 2%nat
    = Some (Fulfilled {| contract_instance := 1; contract_address := VStr "0xToken" |},
            []).
Proof.
  split; [simpl; lia|].
  destruct (getContract_memoizes (tokenOn true)) as (_ & _ & H & _).
  destruct (H [stubWeb3Down; stubWeb3 true 1; stubWeb3 true 2] (stateWith ∅ ∅))
    as [_ H'].
  apply (H' 1%nat 2%nat _
           [GetABI (VStr "ChildERC20") (VStr "pos");
            GetContract true (VStr "0xToken") (VStr "abi")]);
    [reflexivity | simpl; lia].
Defined.

(** Three calls in a row, the first with the ABI fetch rejected: the second
    fetches again and builds the contract, the third gets it from the memo. *)
Example getContract_scenario :
  (getContract_each (tokenOn true)
     [stubWeb3Down; stubWeb3 true 1; stubWeb3 true 2] (stateWith ∅ ∅)).1
  = [(Rejected (Upstream (VStr "timeout")),
      [GetABI (VStr "ChildERC20") (VStr "pos")]);
     (Fulfilled {| contract_instance := 1; contract_address := VStr "0xToken" |},
      [GetABI (VStr "ChildERC20") (VStr "pos");
       GetContract true (VStr "0xToken") (VStr "abi")]);
     (Fulfilled {| contract_instance := 1; contract_address := VStr "0xToken" |},
      [])].
Proof. vm_compute. reflexivity. Qed.

(** * Further properties of the code *)

(** ** The builder *)

Lemma deref_store_other isP o s :
  deref (defaultConfigOf (negb isP)) (store (defaultConfigOf isP) o s)
  = deref (defaultConfigOf (negb isP)) s.
Proof. by destruct isP. Qed.

Lemma createTransactionConfig_state client txc method isP isW s :
  ∃ o, (createTransactionConfig client txc method isP isW s).1.2
       = store (defaultConfigOf isP) o s.
Proof.
  destruct isW.
  - rewrite createTransactionConfig_write.
    destruct (guardFires _ _ _); [by eexists|].
    destruct (settle _ _ _ _) as [[[[gl gp] n] c]|e]; by eexists.
  - rewrite createTransactionConfig_read. by eexists.
Qed.

(** X1. A build, in either mode and whatever its outcome, changes nothing but
    the default record of its own side: the other side's default record and
    the memoised contract are as before. *)
Theorem build_frames_other_side client txConfig method isP isW s :
  deref (defaultConfigOf (negb isP))
    (createTransactionConfig client txConfig method isP isW s).1.2
  = deref (defaultConfigOf (negb isP)) s
  ∧ contract_ (createTransactionConfig client txConfig method isP isW s).1.2
    = contract_ s.
Proof.
  destruct (createTransactionConfig_state client txConfig method isP isW s)
    as [o ->].
  split; [apply deref_store_other | apply contract_store].
Qed.

Lemma issuedCalls_cases client method isP m :
  issuedCalls client method isP m
  = (if truthy (get "gasLimit" m) then [] else [(gasCall client method isP m).1])
    ++ (if truthy (get "gasPrice" m) then [] else [GetGasPrice isP])
    ++ (if truthy (get "nonce" m) then []
        else [GetTransactionCount isP (get "from" m) (VStr "pending")])
    ++ (if truthy (get "chainId" m) then [] else [GetChainId isP]).
Proof.
  unfold issuedCalls, gasLimitP, gasPriceP, nonceP, chainIdP, countCall.
  by rewrite !issued_calls.
Qed.

Lemma filter_none {A} (f : A → bool) l :
  Forall (λ x, f x = false) l → List.filter f l = [].
Proof.
  induction 1 as [|x l Hx _ IH]; [reflexivity|]. simpl. by rewrite Hx.
Qed.

Lemma issuedCalls_own_side client method isP m :
  Forall (λ ev, onSide isP ev = true) (issuedCalls client method isP m)
  ∧ (is_Some method →
     Forall (λ ev, isClientEstimate ev = false) (issuedCalls client method isP m))
  ∧ (method = None →
     Forall (λ ev, isMethodCall ev = false) (issuedCalls client method isP m)).
Proof.
  rewrite issuedCalls_cases. unfold gasCall.
  split_and!; [|intros [mt ->]|intros ->]; rewrite !Forall_app;
    split_and!;
    repeat match goal with
           | |- context [if truthy ?v then _ else _] => destruct (truthy v)
           | |- context [match ?m with Some _ => _ | None => _ end] => destruct m
           end;
    repeat constructor; by destruct isP.
Qed.

Lemma createTransactionConfig_own_side client txConfig method isP isW s :
  Forall (λ ev, onSide isP ev = true)
    (createTransactionConfig client txConfig method isP isW s).2
  ∧ (is_Some method →
     List.filter isClientEstimate
       (createTransactionConfig client txConfig method isP isW s).2 = [])
  ∧ (method = None →
     List.filter isMethodCall
       (createTransactionConfig client txConfig method isP isW s).2 = []).
Proof.
  destruct (issuedCalls_own_side client method isP
              (merged txConfig (deref (defaultConfigOf isP) s)))
    as (Hside & Hest & Hmeth).
  destruct isW.
  - split_and!.
    + rewrite createTransactionConfig_trace.
      repeat (constructor; [by destruct isP|]).
      destruct (guardFires _ _ _); [constructor|].
      rewrite Forall_app. split; [exact Hside|].
      destruct (settle _ _ _ _); repeat constructor.
    + intros Hm. rewrite createTransactionConfig_filter by reflexivity.
      destruct (guardFires _ _ _); [reflexivity|]. by apply filter_none, Hest.
    + intros Hm. rewrite createTransactionConfig_filter by reflexivity.
      destruct (guardFires _ _ _); [reflexivity|]. by apply filter_none, Hmeth.
  - rewrite createTransactionConfig_read. split_and!; by repeat constructor.
Qed.


(** X2. Every client call of a build is made on the client of the build's own
    side.  With a method handle the gas estimate goes to the handle and the
    client's [estimateGas] is never called; without one, no call is made on
    any method handle. *)
Theorem build_calls_own_side client txConfig method isP isW s :
  Forall (λ ev, onSide isP ev = true)
    (createTransactionConfig client txConfig method isP isW s).2
  ∧ (is_Some method →
     List.filter isClientEstimate
       (createTransactionConfig client txConfig method isP isW s).2 = [])
  ∧ (method = None →
     List.filter isMethodCall
       (createTransactionConfig client txConfig method isP isW s).2 = []).
Proof. apply createTransactionConfig_own_side. Qed.

Lemma issued_resolves cur c v :
  c.2 = Resolves v →
  ∃ v', (issued cur c).2 = Resolves v'.
Proof. unfold issued. destruct (truthy cur); eauto. Qed.

(** X3. A write-mode build that passes the guard is fulfilled as soon as the
    four capabilities it may consult resolve, whatever the option holds; its
    last event is the log line written after the resolutions. *)
Theorem build_fulfilled_when_all_resolve client txConfig method isP s g p n c :
  guardFires client isP (merged txConfig (deref (defaultConfigOf isP) s)) = false →
  (gasCall client method isP (merged txConfig (deref (defaultConfigOf isP) s))).2
  = Resolves g →
  getGasPrice (getClient client isP) = Resolves p →
  getTransactionCount (getClient client isP)
    (get "from" (merged txConfig (deref (defaultConfigOf isP) s))) (VStr "pending")
  = Resolves n →
  getChainId (getClient client isP) = Resolves c →
  ∃ s' t,
    createTransactionConfig client txConfig method isP true s
    = (Ok (defaultConfigOf isP), s', t)
    ∧ last t = Some (Log "options filled").
Proof.
  intros Hguard Hg Hp Hn Hc. rewrite createTransactionConfig_write, Hguard.
  unfold gasLimitP, gasPriceP, nonceP, chainIdP, countCall.
  destruct (issued_resolves (get "gasLimit" (merged txConfig (deref (defaultConfigOf isP) s)))
              _ _ Hg) as [v1 ->].
  destruct (issued_resolves (get "gasPrice" (merged txConfig (deref (defaultConfigOf isP) s)))
              (GetGasPrice isP, getGasPrice (getClient client isP)) _ Hp) as [v2 ->].
  destruct (issued_resolves (get "nonce" (merged txConfig (deref (defaultConfigOf isP) s)))
              (GetTransactionCount isP
                 (get "from" (merged txConfig (deref (defaultConfigOf isP) s)))
                 (VStr "pending"),
               getTransactionCount (getClient client isP)
                 (get "from" (merged txConfig (deref (defaultConfigOf isP) s)))
                 (VStr "pending")) _ Hn) as [v3 ->].
  destruct (issued_resolves (get "chainId" (merged txConfig (deref (defaultConfigOf isP) s)))
              (GetChainId isP, getChainId (getClient client isP)) _ Hc) as [v4 ->].
  cbn [settle]. eexists _, _. split; [reflexivity|].
  rewrite !app_assoc. apply last_snoc.
Qed.

Lemma build_fulfilled_when_all_resolve_witness :
  guardFires (stubWeb3 false 0) false
    (merged (VObj {["from" := VStr "0xA"]})
       (deref (defaultConfigOf false) (stateWith ∅ ∅))) = false
  ∧ ∃ s' t,
      createTransactionConfig (stubWeb3 false 0) (VObj {["from" := VStr "0xA"]})
        (Some stubMethod) false true (stateWith ∅ ∅)
      = (Ok (defaultConfigOf false), s', t)
      ∧ last t = Some (Log "options filled").
Proof.
  split; [reflexivity|].
  apply (build_fulfilled_when_all_resolve (stubWeb3 false 0)
           (VObj {["from" := VStr "0xA"]}) (Some stubMethod) false (stateWith ∅ ∅)
           (VNum 50000) (VStr "7") (VNum 5) (VNum 137)); reflexivity.
Defined.

Lemma settle_fail p1 p2 p3 p4 e :
  settle p1 p2 p3 p4 = Fail e →
  ∃ r, e = Upstream r ∧ In (Rejects r) [p1; p2; p3; p4].
Proof.
  destruct p1 as [v1|r1], p2 as [v2|r2], p3 as [v3|r3], p4 as [v4|r4];
    simpl; intros [= <-]; eexists; (split; [reflexivity|tauto]).
Qed.

(** X4. A write-mode build fails in one of two ways.  Stopped by the guard,
    it is on the child side, a dynamic fee field of the merged config is
    truthy, and it has made no call but the log line and the support query.
    Otherwise one of the four promises was rejected and the build is rejected
    with that promise's reason, after every call the array needed was issued.
    Either way the default record holds the merge of the option and none of
    the resolved fields. *)
Theorem failed_build_leaves_merge client txConfig method isP s e s' t :
  createTransactionConfig client txConfig method isP true s = (Fail e, s', t) →
  s' = store (defaultConfigOf isP)
         (merged txConfig (deref (defaultConfigOf isP) s)) s
  ∧ ((e = ChildNoEIP1559 ∧ isP = false
      ∧ truthy (get "maxFeePerGas" (merged txConfig (deref (defaultConfigOf isP) s)))
        || truthy (get "maxPriorityFeePerGas"
                     (merged txConfig (deref (defaultConfigOf isP) s))) = true
      ∧ t = [Log "txConfig"; IsEIP1559Supported isP])
     ∨ (∃ r, e = Upstream r
           ∧ In (Rejects r)
               [(gasLimitP client method isP
                   (merged txConfig (deref (defaultConfigOf isP) s))).2;
                (gasPriceP client isP
                   (merged txConfig (deref (defaultConfigOf isP) s))).2;
                (nonceP client isP
                   (merged txConfig (deref (defaultConfigOf isP) s))).2;
                (chainIdP client isP
                   (merged txConfig (deref (defaultConfigOf isP) s))).2]
           ∧ t = [Log "txConfig"; IsEIP1559Supported isP]
                 ++ issuedCalls client method isP
                      (merged txConfig (deref (defaultConfigOf isP) s)))).
Proof.
  rewrite createTransactionConfig_write.
  destruct (guardFires _ _ _) eqn:Hguard.
  - intros [= <- <- <-]. split; [reflexivity|]. left.
    unfold guardFires in Hguard.
    apply andb_prop in Hguard as [Hguard Hfee].
    apply andb_prop in Hguard as [Hside _].
    split_and!; try reflexivity; [by destruct isP | exact Hfee].
  - destruct (settle _ _ _ _) as [[[[gl gp] n] c]|e'] eqn:Hs; [discriminate|].
    intros [= <- <- <-]. split; [reflexivity|]. right.
    apply settle_fail in Hs as (r & -> & Hin). by exists r.
Qed.

Lemma failed_build_leaves_merge_witness :
  createTransactionConfig stubWeb3Down (VObj {["maxFeePerGas" := VNum 10]})
    None false true (stateWith ∅ ∅)
  = (Fail ChildNoEIP1559, stateWith ∅ {["maxFeePerGas" := VNum 10]},
     [Log "txConfig"; IsEIP1559Supported false])
  ∧ stateWith ∅ {["maxFeePerGas" := VNum 10]}
    = store (defaultConfigOf false)
        (merged (VObj {["maxFeePerGas" := VNum 10]})
           (deref (defaultConfigOf false) (stateWith ∅ ∅))) (stateWith ∅ ∅).
Proof.
  assert (createTransactionConfig stubWeb3Down (VObj {["maxFeePerGas" := VNum 10]})
            None false true (stateWith ∅ ∅)
          = (Fail ChildNoEIP1559, stateWith ∅ {["maxFeePerGas" := VNum 10]},
             [Log "txConfig"; IsEIP1559Supported false])) as Hrun
    by (vm_compute; reflexivity).
  split; [exact Hrun|].
  exact (proj1 (failed_build_leaves_merge _ _ _ _ _ _ _ _ Hrun)).
Defined.

(** X5. A write-mode build that is fulfilled drops no field of the merged
    config, and leaves every field other than the six it assigns ([gasLimit],
    [nonce], [chainId], [gasPrice], [maxFeePerGas], [maxPriorityFeePerGas])
    with the value the merged config had: sender, value and any other field
    of the option or the defaults reach the built config unchanged. *)
Theorem build_keeps_other_fields client txConfig method isP s config s' t k :
  createTransactionConfig client txConfig method isP true s = (Ok config, s', t) →
  (is_Some (merged txConfig (deref (defaultConfigOf isP) s) !! k) →
   is_Some (deref config s' !! k))
  ∧ (isWrittenField k = false →
     deref config s' !! k = merged txConfig (deref (defaultConfigOf isP) s) !! k).
Proof.
  intros Hrun.
  apply createTransactionConfig_fulfilled in Hrun
    as (_ & gl & gp & n & c & _ & _ & _ & _ & ->).
  unfold filled. split.
  - intros Hk.
    destruct (isEIP1559Supported client isP);
      rewrite ?lookup_insert_is_Some'; tauto.
  - intros Hnot. unfold isWrittenField in Hnot.
    apply bool_decide_eq_false in Hnot.
    rewrite !elem_of_cons in Hnot.
    destruct (isEIP1559Supported client isP);
      rewrite !lookup_insert_ne; (reflexivity || (intros <-; tauto)).
Qed.

Lemma build_keeps_other_fields_witness :
  createTransactionConfig (stubWeb3 true 0)
    (VObj (<["value" := VStr "0"]> {["from" := VStr "0xA"]})) None true true
    (stateWith ∅ ∅)
  = (Ok ParentDefault,
     stateWith
       (<["maxPriorityFeePerGas" := VUndefined]> (<["maxFeePerGas" := VUndefined]>
          (<["chainId" := VNum 137]> (<["nonce" := VNum 5]>
             (<["gasLimit" := VNum 21000]>
                (<["value" := VStr "0"]> {["from" := VStr "0xA"]})))))) ∅,
     [Log "txConfig"; IsEIP1559Supported true;
      EstimateGas true (<["from" := VStr "0xA"]> (<["value" := VStr "0"]> ∅));
      GetGasPrice true;
      GetTransactionCount true (VStr "0xA") (VStr "pending");
      GetChainId true; Log "options filled"])
  ∧ (isWrittenField "from" = false →
     (<["maxPriorityFeePerGas" := VUndefined]> (<["maxFeePerGas" := VUndefined]>
        (<["chainId" := VNum 137]> (<["nonce" := VNum 5]>
           (<["gasLimit" := VNum 21000]>
              (<["value" := VStr "0"]> {["from" := VStr "0xA"]})))))
      : Obj) !! "from"
     = merged (VObj (<["value" := VStr "0"]> {["from" := VStr "0xA"]}))
         (deref (defaultConfigOf true) (stateWith ∅ ∅)) !! "from").
Proof.
  assert (createTransactionConfig (stubWeb3 true 0)
            (VObj (<["value" := VStr "0"]> {["from" := VStr "0xA"]})) None true true
            (stateWith ∅ ∅)
          = (Ok ParentDefault,
             stateWith
               (<["maxPriorityFeePerGas" := VUndefined]>
                  (<["maxFeePerGas" := VUndefined]>
                     (<["chainId" := VNum 137]> (<["nonce" := VNum 5]>
                        (<["gasLimit" := VNum 21000]>
                           (<["value" := VStr "0"]> {["from" := VStr "0xA"]})))))) ∅,
             [Log "txConfig"; IsEIP1559Supported true;
              EstimateGas true (<["from" := VStr "0xA"]> (<["value" := VStr "0"]> ∅));
              GetGasPrice true;
              GetTransactionCount true (VStr "0xA") (VStr "pending");
              GetChainId true; Log "options filled"])) as Hrun
    by (vm_compute; reflexivity).
  split; [exact Hrun|].
  exact (proj2 (build_keeps_other_fields _ _ _ _ _ _ _ _ "from" Hrun)).
Defined.

(** X6. In a fulfilled write-mode build, [gasLimit] is written from the
    value its promise resolved with, coerced by [Number]: the field is
    present, and when that value is a safe integer, given as a number or as a
    string of decimal digits, the field is that integer.  [nonce] and
    [chainId] are stored as resolved, without coercion.  Each promise is the
    merged config's own value when that is truthy and the answer of the call
    otherwise; a truthy nonce or chain id from the caller or the defaults is
    therefore kept as given. *)
Theorem build_sets_limit_nonce_chain client txConfig method isP s config s' t :
  createTransactionConfig client txConfig method isP true s = (Ok config, s', t) →
  ∃ gasLimit nonce chainId,
    is_Some (deref config s' !! "gasLimit")
    ∧ (∀ n, safeInteger gasLimit = Some n →
            deref config s' !! "gasLimit" = Some (VNum n))
    ∧ deref config s' !! "nonce" = Some nonce
    ∧ deref config s' !! "chainId" = Some chainId
    ∧ (if truthy (get "gasLimit" (merged txConfig (deref (defaultConfigOf isP) s)))
       then gasLimit = get "gasLimit" (merged txConfig (deref (defaultConfigOf isP) s))
       else (gasCall client method isP
               (merged txConfig (deref (defaultConfigOf isP) s))).2
            = Resolves gasLimit)
    ∧ (if truthy (get "nonce" (merged txConfig (deref (defaultConfigOf isP) s)))
       then nonce = get "nonce" (merged txConfig (deref (defaultConfigOf isP) s))
       else getTransactionCount (getClient client isP)
              (get "from" (merged txConfig (deref (defaultConfigOf isP) s)))
              (VStr "pending")
            = Resolves nonce)
    ∧ (if truthy (get "chainId" (merged txConfig (deref (defaultConfigOf isP) s)))
       then chainId = get "chainId" (merged txConfig (deref (defaultConfigOf isP) s))
       else getChainId (getClient client isP) = Resolves chainId).
Proof.
  intros Hrun.
  apply createTransactionConfig_fulfilled in Hrun
    as (_ & gl & gp & n & c & Hgl & _ & Hn & Hc & ->).
  exists gl, n, c. unfold filled.
  split_and!.
  - destruct (isEIP1559Supported client isP); simplify_map_eq; eauto.
  - intros k Hk. apply Number_safeInteger in Hk. rewrite <- Hk.
    destruct (isEIP1559Supported client isP); by simplify_map_eq.
  - destruct (isEIP1559Supported client isP); by simplify_map_eq.
  - destruct (isEIP1559Supported client isP); by simplify_map_eq.
  - apply issued_promise in Hgl. exact Hgl.
  - apply issued_promise in Hn. exact Hn.
  - apply issued_promise in Hc. exact Hc.
Qed.

Lemma build_sets_limit_nonce_chain_witness :
  createTransactionConfig (stubWeb3 false 0)
    (VObj (<["gasLimit" := VStr "21000"]> {["nonce" := VStr "9"]})) None true true
    (stateWith ∅ ∅)
  = (Ok ParentDefault,
     stateWith
       (<["gasPrice" := VNum 7]> (<["chainId" := VNum 137]>
          (<["nonce" := VStr "9"]> {["gasLimit" := VNum 21000]}))) ∅,
     [Log "txConfig"; IsEIP1559Supported true; GetGasPrice true; GetChainId true;
      Log "options filled"])
  ∧ ∃ gasLimit nonce chainId,
      is_Some ((<["gasPrice" := VNum 7]> (<["chainId" := VNum 137]>
         (<["nonce" := VStr "9"]> {["gasLimit" := VNum 21000]})) : Obj) !! "gasLimit")
      ∧ (∀ n, safeInteger gasLimit = Some n →
           (<["gasPrice" := VNum 7]> (<["chainId" := VNum 137]>
              (<["nonce" := VStr "9"]> {["gasLimit" := VNum 21000]})) : Obj) !! "gasLimit"
           = Some (VNum n))
      ∧ (<["gasPrice" := VNum 7]> (<["chainId" := VNum 137]>
           (<["nonce" := VStr "9"]> {["gasLimit" := VNum 21000]})) : Obj) !! "nonce"
        = Some nonce
      ∧ (<["gasPrice" := VNum 7]> (<["chainId" := VNum 137]>
           (<["nonce" := VStr "9"]> {["gasLimit" := VNum 21000]})) : Obj) !! "chainId"
        = Some chainId
      ∧ gasLimit = VStr "21000" ∧ nonce = VStr "9"
      ∧ getChainId (getClient (stubWeb3 false 0) true) = Resolves chainId.
Proof.
  assert (createTransactionConfig (stubWeb3 false 0)
            (VObj (<["gasLimit" := VStr "21000"]> {["nonce" := VStr "9"]})) None
            true true (stateWith ∅ ∅)
          = (Ok ParentDefault,
             stateWith
               (<["gasPrice" := VNum 7]> (<["chainId" := VNum 137]>
                  (<["nonce" := VStr "9"]> {["gasLimit" := VNum 21000]}))) ∅,
             [Log "txConfig"; IsEIP1559Supported true; GetGasPrice true;
              GetChainId true; Log "options filled"])) as Hrun
    by (vm_compute; reflexivity).
  split; [exact Hrun|].
  exact (build_sets_limit_nonce_chain _ _ _ _ _ _ _ _ Hrun).
Defined.

(** X7. Builds on one side compose through the default record.  After a
    read-mode build with option [props1] and then one with option [props2],
    the record holds, for every key, the second option's value if it has the
    key, else the first option's value if it has the key, else the original
    default: what an earlier caller passed stays visible to every later
    build that does not override it. *)
Theorem later_build_sees_earlier_option client1 client2 method1 method2
    props1 props2 isP s k :
  deref (defaultConfigOf isP)
    (createTransactionConfig client2 (VObj props2) method2 isP false
       (createTransactionConfig client1 (VObj props1) method1 isP false s).1.2).1.2
  !! k
  = match props2 !! k with
    | Some v => Some v
    | None =>
        match props1 !! k with
        | Some v => Some v
        | None => deref (defaultConfigOf isP) s !! k
        end
    end.
Proof.
  rewrite !createTransactionConfig_read. cbn [fst snd].
  by rewrite !deref_store, !merged_lookup.
Qed.

Lemma merged_lookup_absent props target k :
  props !! k = None →
  get k (merged (VObj props) target) = get k target.
Proof. intros Hk. unfold get. by rewrite merged_lookup, Hk. Qed.

Lemma built_truthy_nonce client txc method isP s config s' t :
  createTransactionConfig client txc method isP true s = (Ok config, s', t) →
  truthy (get "nonce" (merged txc (deref (defaultConfigOf isP) s))) = true →
  get "nonce" (deref config s')
  = get "nonce" (merged txc (deref (defaultConfigOf isP) s)).
Proof.
  intros Hrun Hnonce.
  apply createTransactionConfig_fulfilled in Hrun
    as (_ & gl & gp & n & c & _ & _ & Hn & _ & ->).
  apply issued_promise in Hn. rewrite Hnonce in Hn. subst n.
  unfold filled, get at 1.
  destruct (isEIP1559Supported client isP); by simplify_map_eq.
Qed.

(** X8. A nonce left in the default record by a fulfilled write-mode build is
    used again.  If that nonce is truthy, a later write-mode build on the
    same side whose option has no [nonce] key never calls
    [getTransactionCount], whatever its client would answer, and when it is
    fulfilled its config carries the earlier nonce. *)
Theorem later_build_reuses_nonce client1 client2 method1 method2 txConfig1 props2
    isP s config1 s1 t1 :
  createTransactionConfig client1 txConfig1 method1 isP true s = (Ok config1, s1, t1) →
  truthy (get "nonce" (deref config1 s1)) = true →
  props2 !! "nonce" = None →
  match createTransactionConfig client2 (VObj props2) method2 isP true s1 with
  | (r2, s2, t2) =>
      List.filter isGetTransactionCount t2 = []
      ∧ ∀ config2, r2 = Ok config2 →
          get "nonce" (deref config2 s2) = get "nonce" (deref config1 s1)
  end.
Proof.
  intros Hrun1 Hnonce Hprops.
  rewrite (createTransactionConfig_returns _ _ _ _ _ _ _ _ _ Hrun1) in Hnonce |- *.
  assert (get "nonce" (merged (VObj props2) (deref (defaultConfigOf isP) s1))
          = get "nonce" (deref (defaultConfigOf isP) s1)) as Hm
    by by apply merged_lookup_absent.
  pose proof (createTransactionConfig_filter isGetTransactionCount client2
                (VObj props2) method2 isP s1 (λ _, eq_refl) (λ _, eq_refl)) as Hcalls.
  cbv zeta in Hcalls.
  destruct (createTransactionConfig client2 _ _ _ _ s1) as [[r2 s2] t2] eqn:Hrun2.
  cbn [snd] in Hcalls. split.
  - rewrite Hcalls. destruct (guardFires _ _ _); [reflexivity|].
    rewrite issuedCalls_cases, Hm, Hnonce. unfold gasCall.
    rewrite !List.filter_app.
    repeat match goal with
           | |- context [if truthy ?v then _ else _] => destruct (truthy v)
           | |- context [match ?m with Some _ => _ | None => _ end] => destruct m
           end; reflexivity.
  - intros config2 ->.
    rewrite (built_truthy_nonce _ _ _ _ _ _ _ _ Hrun2) by by rewrite Hm.
    exact Hm.
Qed.

Lemma later_build_reuses_nonce_witness :
  createTransactionConfig (stubWeb3 false 0) (VObj {["from" := VStr "0xA"]}) None
    true true (stateWith ∅ ∅)
  = (Ok ParentDefault,
     stateWith
       (<["gasPrice" := VNum 7]> (<["chainId" := VNum 137]>
          (<["nonce" := VNum 5]> (<["gasLimit" := VNum 21000]>
             {["from" := VStr "0xA"]})))) ∅,
     [Log "txConfig"; IsEIP1559Supported true;
      EstimateGas true (<["from" := VStr "0xA"]> (<["value" := VUndefined]> ∅));
      GetGasPrice true;
      GetTransactionCount true (VStr "0xA") (VStr "pending");
      GetChainId true; Log "options filled"])
  ∧ match createTransactionConfig stubWeb3Down (VObj {["value" := VStr "1"]}) None
            true true
            (stateWith
               (<["gasPrice" := VNum 7]> (<["chainId" := VNum 137]>
                  (<["nonce" := VNum 5]> (<["gasLimit" := VNum 21000]>
                     {["from" := VStr "0xA"]})))) ∅) with
    | (r2, s2, t2) =>
        List.filter isGetTransactionCount t2 = []
        ∧ ∀ config2, r2 = Ok config2 →
            get "nonce" (deref config2 s2)
            = get "nonce"
                (deref ParentDefault
                   (stateWith
                      (<["gasPrice" := VNum 7]> (<["chainId" := VNum 137]>
                         (<["nonce" := VNum 5]> (<["gasLimit" := VNum 21000]>
                            {["from" := VStr "0xA"]})))) ∅))
    end.
Proof.
  assert (createTransactionConfig (stubWeb3 false 0) (VObj {["from" := VStr "0xA"]})
            None true true (stateWith ∅ ∅)
          = (Ok ParentDefault,
             stateWith
               (<["gasPrice" := VNum 7]> (<["chainId" := VNum 137]>
                  (<["nonce" := VNum 5]> (<["gasLimit" := VNum 21000]>
                     {["from" := VStr "0xA"]})))) ∅,
             [Log "txConfig"; IsEIP1559Supported true;
              EstimateGas true
                (<["from" := VStr "0xA"]> (<["value" := VUndefined]> ∅));
              GetGasPrice true;
              GetTransactionCount true (VStr "0xA") (VStr "pending");
              GetChainId true; Log "options filled"])) as Hrun
    by (vm_compute; reflexivity).
  split; [exact Hrun|].
  apply (later_build_reuses_nonce _ stubWeb3Down None None _
           {["value" := VStr "1"]} _ _ _ _ _ Hrun); reflexivity.
Defined.

(** ** The public operations *)

Lemma builder_calls_filter (f : Event → bool) l :
  (∀ ev, isBuilderCall ev = true → f ev = false) →
  Forall (λ ev, isBuilderCall ev = true) l → List.filter f l = [].
Proof.
  intros Hf. induction 1 as [|ev l Hev _ IH]; [reflexivity|].
  simpl. by rewrite (Hf ev Hev).
Qed.

Lemma build_filter (f : Event → bool) client txc method isP isW s :
  (∀ ev, isBuilderCall ev = true → f ev = false) →
  List.filter f (createTransactionConfig client txc method isP isW s).2 = [].
Proof.
  intros Hf. apply builder_calls_filter; [exact Hf|].
  apply createTransactionConfig_calls.
Qed.

Lemma processWrite_record token client method props s :
  processWrite token client method (VObj props) s =
  match createTransactionConfig client (VObj props) (Some method) (isParent token)
          true s with
  | (Ok config, s1, t1) =>
      let pre := [Log "process write"] ++ t1 ++ [Log "process write config"] in
      if truthy (get "returnTransaction" props)
      then (Fulfilled
              (RMerged (merge (deref config s1)
                          (<["data" := method_encodeABI method]>
                             (<["to" := method_address method]> ∅)))),
            s1, pre ++ [MethodEncodeABI])
      else (Fulfilled (RWrite (method_write method (deref config s1))), s1,
            pre ++ [MethodWrite (deref config s1)])
  | (Fail e, s1, t1) => (Rejected e, s1, [Log "process write"] ++ t1)
  end.
Proof.
  unfold processWrite, run. cbn [defaultTo].
  rewrite validate_then_log_passes by reflexivity.
  unfold mbind at 1, M_bind at 1.
  destruct (createTransactionConfig _ _ _ _ _ s) as [[[config|e] s1] t1];
    [|reflexivity].
  autorewrite with run. rewrite run_propOf_record.
  destruct (truthy (get "returnTransaction" props)); autorewrite with run;
    simpl; by rewrite <- !app_assoc.
Qed.

Lemma sendTransaction_record token client props s :
  sendTransaction token client (VObj props) s =
  match createTransactionConfig client (VObj props) None (isParent token) true s with
  | (Ok config, s1, t1) =>
      let pre := [Log "process write"] ++ t1 ++ [Log "process write config"] in
      if truthy (get "returnTransaction" props)
      then (Fulfilled (RConfig config), s1, pre)
      else (Fulfilled (RWrite (write (getClient client (isParent token))
                                 (deref config s1))), s1,
            pre ++ [ClientWrite (isParent token) (deref config s1)])
  | (Fail e, s1, t1) => (Rejected e, s1, [Log "process write"] ++ t1)
  end.
Proof.
  unfold sendTransaction, run. cbn [defaultTo].
  rewrite validate_then_log_passes by reflexivity.
  unfold mbind at 1, M_bind at 1.
  destruct (createTransactionConfig _ _ _ _ _ s) as [[[config|e] s1] t1];
    [|reflexivity].
  autorewrite with run. rewrite run_propOf_record.
  destruct (truthy (get "returnTransaction" props)); autorewrite with run;
    simpl; by rewrite <- !app_assoc.
Qed.

Lemma processRead_record token client method props s :
  processRead token client method (VObj props) s =
  let m := merged (VObj props) (deref (defaultConfigOf (isParent token)) s) in
  let s1 := store (defaultConfigOf (isParent token)) m s in
  let pre := [Log "process read"; Log "txConfig"; Log "read tx config created"] in
  if truthy (get "returnTransaction" props)
  then match contract_ s with
       | Some contract =>
           (Fulfilled
              (RMerged (merge m (<["data" := method_encodeABI method]>
                                   (<["to" := contract_address contract]> ∅)))),
            s1, pre ++ [MethodEncodeABI])
       | None => (Rejected TypeError, s1, pre ++ [MethodEncodeABI])
       end
  else match method_read method m with
       | Resolves v => (Fulfilled (RValue v), s1, pre ++ [MethodRead m])
       | Rejects r => (Rejected (Upstream r), s1, pre ++ [MethodRead m])
       end.
Proof.
  unfold processRead, run. cbn [defaultTo].
  rewrite validate_then_log_passes by reflexivity.
  rewrite run_build_read; autorewrite with run. rewrite run_propOf_record.
  cbv zeta.
  destruct (truthy (get "returnTransaction" props)); autorewrite with run.
  - destruct (contract_ s); autorewrite with run; reflexivity.
  - rewrite run_await. destruct (method_read _ _); autorewrite with run;
      reflexivity.
Qed.

Lemma option_cases option :
  option = VUndefined ∨ option = VNull ∨ (∃ props, option = VObj props)
  ∨ (option ≠ VUndefined
     ∧ (typeof option ≠ "object" ∨ Array_isArray option = true)).
Proof.
  destruct option; eauto;
    right; right; right; (split; [discriminate|]);
    (by left) || (by right).
Qed.

Lemma operations_throw_on_invalid token client method option s :
  option ≠ VUndefined →
  typeof option ≠ "object" ∨ Array_isArray option = true →
  processWrite token client method option s = (Throws TransactionOptionNotObject, s, [])
  ∧ sendTransaction token client option s = (Throws TransactionOptionNotObject, s, [])
  ∧ readTransaction token client option s = (Throws TransactionOptionNotObject, s, [])
  ∧ processRead token client method option s = (Throws TransactionOptionNotObject, s, []).
Proof.
  intros Hdef Hbad.
  assert (defaultTo (VObj ∅) option = option) as Hopt by by destruct option.
  unfold processWrite, sendTransaction, readTransaction, processRead.
  cbv zeta. rewrite Hopt.
  split_and!; apply run_throws, validate_then_log_rejects, Hbad.
Qed.

Lemma operations_on_null token client method s :
  processWrite token client method VNull s
  = match createTransactionConfig client VNull (Some method) (isParent token) true s with
    | (Ok config, s1, t1) =>
        (Rejected TypeError, s1,
         [Log "process write"] ++ t1 ++ [Log "process write config"])
    | (Fail e, s1, t1) => (Rejected e, s1, [Log "process write"] ++ t1)
    end
  ∧ sendTransaction token client VNull s
    = match createTransactionConfig client VNull None (isParent token) true s with
      | (Ok config, s1, t1) =>
          (Rejected TypeError, s1,
           [Log "process write"] ++ t1 ++ [Log "process write config"])
      | (Fail e, s1, t1) => (Rejected e, s1, [Log "process write"] ++ t1)
      end
  ∧ readTransaction token client VNull s
    = match createTransactionConfig client VNull None (isParent token) true s with
      | (Ok config, s1, t1) =>
          (Rejected TypeError, s1,
           [Log "process read"] ++ t1 ++ [Log "write tx config created"])
      | (Fail e, s1, t1) => (Rejected e, s1, [Log "process read"] ++ t1)
      end
  ∧ processRead token client method VNull s
    = match createTransactionConfig client VNull (Some method) (isParent token) false s with
      | (Ok config, s1, t1) =>
          (Rejected TypeError, s1,
           [Log "process read"] ++ t1 ++ [Log "read tx config created"])
      | (Fail e, s1, t1) => (Rejected e, s1, [Log "process read"] ++ t1)
      end.
Proof.
  unfold processWrite, sendTransaction, readTransaction, processRead, run.
  cbv zeta. cbn [defaultTo].
  rewrite !validate_then_log_passes by reflexivity.
  split_and!;
    unfold mbind at 1, M_bind at 1;
    (destruct (createTransactionConfig _ _ _ _ _ s) as [[[config|e] s1] t1];
     [|reflexivity]);
    autorewrite with run; rewrite run_propOf_null; simpl;
    by rewrite <- !app_assoc.
Qed.

Lemma processWrite_write_cases token client method option s :
  match processWrite token client method option s with
  | (out, s', t) =>
      List.filter isClientWrite t = []
      ∧ ((List.filter isMethodWrite t = [] ∧ ∀ v, out ≠ Fulfilled (RWrite v))
         ∨ (List.filter isMethodWrite t
            = [MethodWrite (deref (defaultConfigOf (isParent token)) s')]
            ∧ out = Fulfilled
                      (RWrite (method_write method
                                 (deref (defaultConfigOf (isParent token)) s')))))
  end.
Proof.
  assert (∀ props,
            match processWrite token client method (VObj props) s with
            | (out, s', t) =>
                List.filter isClientWrite t = []
                ∧ ((List.filter isMethodWrite t = [] ∧ ∀ v, out ≠ Fulfilled (RWrite v))
                   ∨ (List.filter isMethodWrite t
                      = [MethodWrite (deref (defaultConfigOf (isParent token)) s')]
                      ∧ out = Fulfilled
                                (RWrite (method_write method
                                           (deref (defaultConfigOf (isParent token)) s')))))
            end) as Hrecord.
  { intros props. rewrite processWrite_record.
    pose proof (build_filter isClientWrite client (VObj props) (Some method)
                  (isParent token) true s) as Hcw.
    pose proof (build_filter isMethodWrite client (VObj props) (Some method)
                  (isParent token) true s) as Hmw.
    destruct (createTransactionConfig _ _ _ _ _ s) as [[[config|e] s1] t1] eqn:Hrun;
      cbn [snd] in Hcw, Hmw.
    - apply createTransactionConfig_returns in Hrun as ->. cbv zeta.
      destruct (truthy (get "returnTransaction" props));
        rewrite !List.filter_app, Hcw, Hmw by (by intros []); simpl.
      + split; [reflexivity|]. left. split; [reflexivity|]. discriminate.
      + split; [reflexivity|]. by right.
    - simpl. rewrite Hcw, Hmw by (by intros []).
      split; [reflexivity|]. left. split; [reflexivity|]. discriminate. }
  destruct (option_cases option) as [->|[->|[[props ->]|[Hdef Hbad]]]].
  - apply (Hrecord ∅).
  - destruct (operations_on_null token client method s) as (-> & _).
    pose proof (build_filter isClientWrite client VNull (Some method)
                  (isParent token) true s) as Hcw.
    pose proof (build_filter isMethodWrite client VNull (Some method)
                  (isParent token) true s) as Hmw.
    destruct (createTransactionConfig _ _ _ _ _ s) as [[[config|e] s1] t1];
      cbn [snd] in Hcw, Hmw;
      rewrite ?List.filter_app; simpl; rewrite Hcw, Hmw by (by intros []);
      (split; [reflexivity|]); left; (split; [reflexivity|]); discriminate.
  - apply Hrecord.
  - destruct (operations_throw_on_invalid token client method option s Hdef Hbad)
      as (-> & _).
    split; [reflexivity|]. left. split; [reflexivity|]. discriminate.
Qed.


(** X9. [processWrite] sends through the method handle, at most once, and
    never through the chain client.  Whatever the option, either
    [method.write] was not called and the outcome is not a write result, or
    it was called exactly once, with the config the build left in the default
    record, and the promise is fulfilled with the result of that call. *)
Theorem processWrite_sends_once token client method option s :
  match processWrite token client method option s with
  | (out, s', t) =>
      List.filter isClientWrite t = []
      ∧ ((List.filter isMethodWrite t = [] ∧ ∀ v, out ≠ Fulfilled (RWrite v))
         ∨ (List.filter isMethodWrite t
            = [MethodWrite (deref (defaultConfigOf (isParent token)) s')]
            ∧ out = Fulfilled
                      (RWrite (method_write method
                                 (deref (defaultConfigOf (isParent token)) s')))))
  end.
Proof. apply processWrite_write_cases. Qed.

Lemma merge_lookup (a b : Obj) k :
  merge a b !! k = match b !! k with Some v => Some v | None => a !! k end.
Proof.
  unfold merge, Object_assign. rewrite (right_id_L ∅ (∪) a).
  destruct (b !! k) as [v|] eqn:Hk.
  - by apply lookup_union_Some_l.
  - by apply lookup_union_r.
Qed.

Lemma unsent_lookup (config : Obj) (data to : Value) :
  merge config (<["data" := data]> (<["to" := to]> ∅)) !! "data" = Some data
  ∧ merge config (<["data" := data]> (<["to" := to]> ∅)) !! "to" = Some to
  ∧ ∀ k, k ≠ "data" → k ≠ "to" →
      merge config (<["data" := data]> (<["to" := to]> ∅)) !! k = config !! k.
Proof.
  split_and!; [by rewrite merge_lookup..|].
  intros k Hd Ht. rewrite merge_lookup. by simplify_map_eq.
Qed.

(** X10. With a truthy [returnTransaction], [processWrite] sends nothing.
    When the build is fulfilled the promise is fulfilled with a new object:
    the built config with [data] set to the method's encoded call and [to]
    set to the method's address, every other field as built; the default
    record gets neither field.  When the build fails the promise is rejected
    with the build's error and the call is not even encoded. *)
Theorem processWrite_unsent_config token client method props s :
  truthy (get "returnTransaction" props) = true →
  match processWrite token client method (VObj props) s with
  | (out, s', t) =>
      List.filter isMethodWrite t = []
      ∧ match createTransactionConfig client (VObj props) (Some method)
                (isParent token) true s with
        | (Ok config, s1, _) =>
            s' = s1
            ∧ List.filter isEncodeABI t = [MethodEncodeABI]
            ∧ ∃ unsent,
                out = Fulfilled (RMerged unsent)
                ∧ unsent !! "data" = Some (method_encodeABI method)
                ∧ unsent !! "to" = Some (method_address method)
                ∧ ∀ k, k ≠ "data" → k ≠ "to" →
                    unsent !! k = deref config s1 !! k
        | (Fail e, s1, _) =>
            s' = s1 ∧ out = Rejected e ∧ List.filter isEncodeABI t = []
        end
  end.
Proof.
  intros Hflag. rewrite processWrite_record, Hflag.
  pose proof (build_filter isEncodeABI client (VObj props) (Some method)
                (isParent token) true s) as Hea.
  pose proof (build_filter isMethodWrite client (VObj props) (Some method)
                (isParent token) true s) as Hmw.
  destruct (createTransactionConfig _ _ _ _ _ s) as [[[config|e] s1] t1];
    cbn [snd] in Hea, Hmw; cbv beta iota zeta.
  - rewrite !List.filter_app, Hea, Hmw by (by intros []). simpl.
    split_and!; try reflexivity.
    eexists. split; [reflexivity|]. apply unsent_lookup.
  - simpl. rewrite Hea, Hmw by (by intros []). by split_and!.
Qed.

Lemma processWrite_unsent_config_witness :
  truthy (get "returnTransaction"
            (<["returnTransaction" := VBool true]> {["from" := VStr "0xA"]} : Obj))
  = true
  ∧ match processWrite (tokenOn false) (stubWeb3 false 0) stubMethod
            (VObj (<["returnTransaction" := VBool true]> {["from" := VStr "0xA"]}))
            (stateWith ∅ ∅) with
    | (out, s', t) =>
        List.filter isMethodWrite t = []
        ∧ match createTransactionConfig (stubWeb3 false 0)
                  (VObj (<["returnTransaction" := VBool true]>
                           {["from" := VStr "0xA"]}))
                  (Some stubMethod) (isParent (tokenOn false)) true
                  (stateWith ∅ ∅) with
          | (Ok config, s1, _) =>
              s' = s1
              ∧ List.filter isEncodeABI t = [MethodEncodeABI]
              ∧ ∃ unsent,
                  out = Fulfilled (RMerged unsent)
                  ∧ unsent !! "data" = Some (method_encodeABI stubMethod)
                  ∧ unsent !! "to" = Some (method_address stubMethod)
                  ∧ ∀ k, k ≠ "data" → k ≠ "to" →
                      unsent !! k = deref config s1 !! k
          | (Fail e, s1, _) =>
              s' = s1 ∧ out = Rejected e ∧ List.filter isEncodeABI t = []
          end
    end.
Proof.
  split; [reflexivity|].
  apply (processWrite_unsent_config (tokenOn false) (stubWeb3 false 0) stubMethod
           (<["returnTransaction" := VBool true]> {["from" := VStr "0xA"]})
           (stateWith ∅ ∅)).
  reflexivity.
Defined.

(** X11. [sendTransaction] sends through the chain client of the token's own
    side, at most once, and never consults a method handle.  Whatever the
    option, every client call it makes is on that side, and either
    [client.write] was not called and the outcome is not a write result, or
    it was called exactly once, with the config the build left in the default
    record, and the promise is fulfilled with the result of that call. *)
Theorem sendTransaction_sends_once token client option s :
  match sendTransaction token client option s with
  | (out, s', t) =>
      List.filter isMethodCall t = []
      ∧ Forall (λ ev, onSide (isParent token) ev = true) t
      ∧ ((List.filter isClientWrite t = [] ∧ ∀ v, out ≠ Fulfilled (RWrite v))
         ∨ (List.filter isClientWrite t
            = [ClientWrite (isParent token)
                 (deref (defaultConfigOf (isParent token)) s')]
            ∧ out = Fulfilled
                      (RWrite (write (getClient client (isParent token))
                                 (deref (defaultConfigOf (isParent token)) s')))))
  end.
Proof.
  assert (∀ txc,
            List.filter isMethodCall
              (createTransactionConfig client txc None (isParent token) true s).2 = []
            ∧ Forall (λ ev, onSide (isParent token) ev = true)
                (createTransactionConfig client txc None (isParent token) true s).2
            ∧ List.filter isClientWrite
                (createTransactionConfig client txc None (isParent token) true s).2 = [])
    as Hbuild.
  { intros txc.
    destruct (createTransactionConfig_own_side client txc None (isParent token)
                true s) as (Hside & _ & Hm).
    split_and!; [by apply Hm | exact Hside | by apply build_filter; intros []]. }
  assert (∀ props,
            match sendTransaction token client (VObj props) s with
            | (out, s', t) =>
                List.filter isMethodCall t = []
                ∧ Forall (λ ev, onSide (isParent token) ev = true) t
                ∧ ((List.filter isClientWrite t = [] ∧ ∀ v, out ≠ Fulfilled (RWrite v))
                   ∨ (List.filter isClientWrite t
                      = [ClientWrite (isParent token)
                           (deref (defaultConfigOf (isParent token)) s')]
                      ∧ out = Fulfilled
                                (RWrite (write (getClient client (isParent token))
                                           (deref (defaultConfigOf (isParent token)) s')))))
            end) as Hrecord.
  { intros props. rewrite sendTransaction_record.
    destruct (Hbuild (VObj props)) as (Hm & Hside & Hcw).
    destruct (createTransactionConfig _ _ _ _ _ s) as [[[config|e] s1] t1] eqn:Hrun;
      cbn [snd] in Hm, Hside, Hcw.
    - apply createTransactionConfig_returns in Hrun as ->. cbv zeta.
      destruct (truthy (get "returnTransaction" props));
        rewrite !List.filter_app, Hm, Hcw, !Forall_app; simpl.
      + split_and!; try done; [by repeat constructor..|].
        left. split; [reflexivity|]. discriminate.
      + split_and!; try done;
          [by repeat constructor | by repeat constructor
          | repeat constructor; unfold onSide; simpl; by destruct (isParent token)
          | by right].
    - simpl. rewrite Hm, Hcw. split_and!; try done.
      + by constructor.
      + left. split; [reflexivity|]. discriminate. }
  destruct (option_cases option) as [->|[->|[[props ->]|[Hdef Hbad]]]].
  - apply (Hrecord ∅).
  - destruct (operations_on_null token client stubMethod s) as (_ & -> & _).
    destruct (Hbuild VNull) as (Hm & Hside & Hcw).
    destruct (createTransactionConfig _ _ _ _ _ s) as [[[config|e] s1] t1];
      cbn [snd] in Hm, Hside, Hcw;
      rewrite ?List.filter_app, ?Forall_app; simpl; rewrite Hm, Hcw;
      split_and!; try done; try (by repeat constructor);
      left; (split; [reflexivity|]); discriminate.
  - apply Hrecord.
  - destruct (operations_throw_on_invalid token client stubMethod option s Hdef Hbad)
      as (_ & -> & _).
    split_and!; [reflexivity | constructor |].
    left. split; [reflexivity|]. discriminate.
Qed.

(** X12. With a truthy [returnTransaction], [sendTransaction] sends nothing
    and leaves the state as the builder left it; when the build is fulfilled
    the promise is fulfilled with the builder's config object itself, with no
    field added, and when the build fails it is rejected with the build's
    error. *)
Theorem sendTransaction_unsent_config token client props s :
  truthy (get "returnTransaction" props) = true →
  match sendTransaction token client (VObj props) s with
  | (out, s', t) =>
      List.filter isClientWrite t = []
      ∧ match createTransactionConfig client (VObj props) None (isParent token)
                true s with
        | (Ok config, s1, _) =>
            s' = s1 ∧ out = Fulfilled (RConfig config)
            ∧ config = defaultConfigOf (isParent token)
        | (Fail e, s1, _) => s' = s1 ∧ out = Rejected e
        end
  end.
Proof.
  intros Hflag. rewrite sendTransaction_record, Hflag.
  pose proof (build_filter isClientWrite client (VObj props) None
                (isParent token) true s) as Hcw.
  destruct (createTransactionConfig _ _ _ _ _ s) as [[[config|e] s1] t1] eqn:Hrun;
    cbn [snd] in Hcw; cbv beta iota zeta.
  - rewrite !List.filter_app, Hcw by (by intros []).
    split_and!; try reflexivity.
    eapply createTransactionConfig_returns, Hrun.
  - simpl. rewrite Hcw by (by intros []). by split_and!.
Qed.

Lemma sendTransaction_unsent_config_witness :
  truthy (get "returnTransaction"
            (<["returnTransaction" := VNum 1]> {["from" := VStr "0xA"]} : Obj))
  = true
  ∧ match sendTransaction (tokenOn true) (stubWeb3 true 0)
            (VObj (<["returnTransaction" := VNum 1]> {["from" := VStr "0xA"]}))
            (stateWith ∅ ∅) with
    | (out, s', t) =>
        List.filter isClientWrite t = []
        ∧ match createTransactionConfig (stubWeb3 true 0)
                  (VObj (<["returnTransaction" := VNum 1]> {["from" := VStr "0xA"]}))
                  None (isParent (tokenOn true)) true (stateWith ∅ ∅) with
          | (Ok config, s1, _) =>
              s' = s1 ∧ out = Fulfilled (RConfig config)
              ∧ config = defaultConfigOf (isParent (tokenOn true))
          | (Fail e, s1, _) => s' = s1 ∧ out = Rejected e
          end
    end.
Proof.
  split; [reflexivity|].
  apply (sendTransaction_unsent_config (tokenOn true) (stubWeb3 true 0)
           (<["returnTransaction" := VNum 1]> {["from" := VStr "0xA"]})
           (stateWith ∅ ∅)).
  reflexivity.
Defined.

(** X13. Without a truthy [returnTransaction], [readTransaction] calls the
    client's [read] only once the build is fulfilled: exactly once, as its
    last call, on the client of the token's side and with the built config;
    the promise then settles as the promise of [read] does.  When the build
    fails, [read] is not called and the promise is rejected with the build's
    error. *)
Theorem readTransaction_reads_after_build token client props s :
  truthy (get "returnTransaction" props) = false →
  match readTransaction token client (VObj props) s with
  | (out, s', t) =>
      match createTransactionConfig client (VObj props) None (isParent token)
              true s with
      | (Ok config, s1, _) =>
          s' = s1
          ∧ List.filter isClientRead t
            = [ClientRead (isParent token) (deref config s1)]
          ∧ last t = Some (ClientRead (isParent token) (deref config s1))
          ∧ out = match read (getClient client (isParent token)) (deref config s1) with
                  | Resolves v => Fulfilled (RValue v)
                  | Rejects r => Rejected (Upstream r)
                  end
      | (Fail e, s1, _) =>
          s' = s1 ∧ List.filter isClientRead t = [] ∧ out = Rejected e
      end
  end.
Proof.
  intros Hflag. rewrite readTransaction_record, Hflag.
  pose proof (build_filter isClientRead client (VObj props) None
                (isParent token) true s) as Hcr.
  destruct (createTransactionConfig _ _ _ _ _ s) as [[[config|e] s1] t1];
    cbn [snd] in Hcr; cbv beta iota zeta.
  - destruct (read _ _); cbv beta iota zeta;
      rewrite !List.filter_app, Hcr by (by intros []);
      (split_and!; try reflexivity; apply last_snoc).
  - simpl. rewrite Hcr by (by intros []). by split_and!.
Qed.

Lemma readTransaction_reads_after_build_witness :
  truthy (get "returnTransaction" ({["from" := VStr "0xA"]} : Obj)) = false
  ∧ match readTransaction (tokenOn true) (stubWeb3 true 0)
            (VObj {["from" := VStr "0xA"]}) (stateWith ∅ ∅) with
    | (out, s', t) =>
        match createTransactionConfig (stubWeb3 true 0)
                (VObj {["from" := VStr "0xA"]}) None (isParent (tokenOn true))
                true (stateWith ∅ ∅) with
        | (Ok config, s1, _) =>
            s' = s1
            ∧ List.filter isClientRead t
              = [ClientRead (isParent (tokenOn true)) (deref config s1)]
            ∧ last t = Some (ClientRead (isParent (tokenOn true)) (deref config s1))
            ∧ out = match read (getClient (stubWeb3 true 0) (isParent (tokenOn true)))
                            (deref config s1) with
                    | Resolves v => Fulfilled (RValue v)
                    | Rejects r => Rejected (Upstream r)
                    end
        | (Fail e, s1, _) =>
            s' = s1 ∧ List.filter isClientRead t = [] ∧ out = Rejected e
        end
    end.
Proof.
  split; [reflexivity|].
  apply (readTransaction_reads_after_build (tokenOn true) (stubWeb3 true 0)
           {["from" := VStr "0xA"]} (stateWith ∅ ∅)).
  reflexivity.
Defined.

(** X14. With a truthy [returnTransaction], [processRead] never calls
    [method.read] and encodes the call once.  The target address is read off
    the memoised contract, not off the method handle: if no contract has been
    loaded on the token the promise is rejected with a [TypeError]; otherwise
    it is fulfilled with a new object, the merged config with [data] set to the
    encoded call and [to] set to the contract's address. *)
Theorem processRead_unsent_needs_contract token client method props s :
  truthy (get "returnTransaction" props) = true →
  match processRead token client method (VObj props) s with
  | (out, s', t) =>
      List.filter isMethodRead t = []
      ∧ List.filter isEncodeABI t = [MethodEncodeABI]
      ∧ match contract_ s with
        | None => out = Rejected TypeError
        | Some contract =>
            ∃ unsent,
              out = Fulfilled (RMerged unsent)
              ∧ unsent !! "data" = Some (method_encodeABI method)
              ∧ unsent !! "to" = Some (contract_address contract)
              ∧ ∀ k, k ≠ "data" → k ≠ "to" →
                  unsent !! k
                  = merged (VObj props)
                      (deref (defaultConfigOf (isParent token)) s) !! k
        end
  end.
Proof.
  intros Hflag. rewrite processRead_record. cbv zeta. rewrite Hflag.
  destruct (contract_ s) as [contract|]; cbv beta iota zeta.
  - split_and!; try reflexivity.
    eexists. split; [reflexivity|]. apply unsent_lookup.
  - by split_and!.
Qed.

Lemma processRead_unsent_needs_contract_witness :
  truthy (get "returnTransaction"
            ({["returnTransaction" := VBool true]} : Obj)) = true
  ∧ match processRead (tokenOn false) (stubWeb3 true 0) stubMethod
            (VObj {["returnTransaction" := VBool true]}) (stateWith ∅ ∅) with
    | (out, s', t) =>
        List.filter isMethodRead t = []
        ∧ List.filter isEncodeABI t = [MethodEncodeABI]
        ∧ out = Rejected TypeError
    end.
Proof.
  split; [reflexivity|].
  exact (processRead_unsent_needs_contract (tokenOn false) (stubWeb3 true 0)
           stubMethod {["returnTransaction" := VBool true]} (stateWith ∅ ∅)
           eq_refl).
Defined.

Lemma processRead_trace token client method option s :
  ∃ rest,
    (processRead token client method option s).2 = rest
    ∧ Forall (λ ev, sideOf ev = None) rest
    ∧ (length (List.filter isMethodRead rest) ≤ 1)%nat.
Proof.
  eexists. split; [reflexivity|].
  destruct (option_cases option) as [->|[->|[[props ->]|[Hdef Hbad]]]].
  - change (processRead token client method VUndefined s)
      with (processRead token client method (VObj ∅) s).
    rewrite processRead_record. cbv zeta.
    destruct (truthy _); [destruct (contract_ s)|destruct (method_read _ _)];
      cbn [snd]; split; repeat constructor.
  - destruct (operations_on_null token client method s) as (_ & _ & _ & ->).
    rewrite createTransactionConfig_read. cbn [snd].
    split; repeat constructor.
  - rewrite processRead_record. cbv zeta.
    destruct (truthy _); [destruct (contract_ s)|destruct (method_read _ _)];
      cbn [snd]; split; repeat constructor.
  - destruct (operations_throw_on_invalid token client method option s Hdef Hbad)
      as (_ & _ & _ & ->).
    split; repeat constructor.
Qed.

(** X15. [processRead] never calls a chain client: whatever the option, none
    of its events is a call on either side's client, and [method.read] is
    called at most once.  On a record option without a truthy
    [returnTransaction] it is called with the merge of the option over the
    defaults, and the promise settles as the promise of [method.read] does. *)
Theorem processRead_reads_through_method token client method :
  (∀ option s,
     Forall (λ ev, sideOf ev = None) (processRead token client method option s).2
     ∧ (length (List.filter isMethodRead
                  (processRead token client method option s).2) ≤ 1)%nat)
  ∧ (∀ props s,
       truthy (get "returnTransaction" props) = false →
       List.filter isMethodRead (processRead token client method (VObj props) s).2
       = [MethodRead (merged (VObj props)
                        (deref (defaultConfigOf (isParent token)) s))]
       ∧ (processRead token client method (VObj props) s).1.1
         = match method_read method
                   (merged (VObj props)
                      (deref (defaultConfigOf (isParent token)) s)) with
           | Resolves v => Fulfilled (RValue v)
           | Rejects r => Rejected (Upstream r)
           end).
Proof.
  split.
  - intros option s.
    destruct (processRead_trace token client method option s)
      as (rest & -> & Hside & Hread).
    by split.
  - intros props s Hflag. rewrite processRead_record. cbv zeta. rewrite Hflag.
    by destruct (method_read _ _).
Qed.

Lemma processRead_reads_through_method_witness :
  truthy (get "returnTransaction" ({["from" := VStr "0xA"]} : Obj)) = false
  ∧ (processRead (tokenOn true) (stubWeb3 true 0) stubMethod
       (VObj {["from" := VStr "0xA"]}) (stateWith ∅ ∅)).1.1
    = match method_read stubMethod
              (merged (VObj {["from" := VStr "0xA"]})
                 (deref (defaultConfigOf (isParent (tokenOn true)))
                    (stateWith ∅ ∅))) with
      | Resolves v => Fulfilled (RValue v)
      | Rejects r => Rejected (Upstream r)
      end.
Proof.
  split; [reflexivity|].
  destruct (processRead_reads_through_method (tokenOn true) (stubWeb3 true 0)
              stubMethod) as [_ H].
  exact (proj2 (H {["from" := VStr "0xA"]} (stateWith ∅ ∅) eq_refl)).
Defined.

(** X16. A [null] option never gets a transaction sent, read or encoded.
    It passes validation and each of the four operations runs its build, in
    which [null] counts as the empty option: the build does what it does on
    [{}].  The operation is then rejected, with a [TypeError] when the build
    was fulfilled and with the build's error otherwise, in the state the
    build left and with no event after the log that follows the build.
    [processRead], whose build cannot fail, is always rejected with the
    [TypeError]. *)
Theorem null_option_is_rejected token client method s :
  (∀ m isW,
     createTransactionConfig client VNull m (isParent token) isW s
     = createTransactionConfig client (VObj ∅) m (isParent token) isW s)
  ∧ processWrite token client method VNull s
    = match createTransactionConfig client (VObj ∅) (Some method) (isParent token)
              true s with
      | (Ok config, s1, t1) =>
          (Rejected TypeError, s1,
           [Log "process write"] ++ t1 ++ [Log "process write config"])
      | (Fail e, s1, t1) => (Rejected e, s1, [Log "process write"] ++ t1)
      end
  ∧ sendTransaction token client VNull s
    = match createTransactionConfig client (VObj ∅) None (isParent token) true s with
      | (Ok config, s1, t1) =>
          (Rejected TypeError, s1,
           [Log "process write"] ++ t1 ++ [Log "process write config"])
      | (Fail e, s1, t1) => (Rejected e, s1, [Log "process write"] ++ t1)
      end
  ∧ readTransaction token client VNull s
    = match createTransactionConfig client (VObj ∅) None (isParent token) true s with
      | (Ok config, s1, t1) =>
          (Rejected TypeError, s1,
           [Log "process read"] ++ t1 ++ [Log "write tx config created"])
      | (Fail e, s1, t1) => (Rejected e, s1, [Log "process read"] ++ t1)
      end
  ∧ processRead token client method VNull s
    = (Rejected TypeError,
       (createTransactionConfig client (VObj ∅) (Some method) (isParent token)
          false s).1.2,
       [Log "process read"; Log "txConfig"; Log "read tx config created"])
  ∧ List.filter isExecution (processWrite token client method VNull s).2 = []
  ∧ List.filter isExecution (sendTransaction token client VNull s).2 = []
  ∧ List.filter isExecution (readTransaction token client VNull s).2 = []
  ∧ List.filter isExecution (processRead token client method VNull s).2 = [].
Proof.
  assert (∀ m isW,
            createTransactionConfig client VNull m (isParent token) isW s
            = createTransactionConfig client (VObj ∅) m (isParent token) isW s)
    as Hnull by reflexivity.
  split; [exact Hnull|].
  destruct (operations_on_null token client method s) as (-> & -> & -> & ->).
  rewrite !Hnull.
  pose proof (build_filter isExecution client (VObj ∅) (Some method)
                (isParent token) true s) as H1.
  pose proof (build_filter isExecution client (VObj ∅) None
                (isParent token) true s) as H2.
  rewrite createTransactionConfig_read.
  destruct (createTransactionConfig client (VObj ∅) (Some method) _ true s)
    as [[[c1|e1] s1] t1];
    destruct (createTransactionConfig client (VObj ∅) None _ true s)
      as [[[c2|e2] s2] t2];
    cbn [fst snd] in *;
    rewrite ?List.filter_app, ?H1, ?H2 by (by intros []);
    split_and!; reflexivity.
Qed.

Lemma framed_refl token s : framed token s s.
Proof. by split. Qed.

Lemma framed_store token o s : framed token s (store (defaultConfigOf (isParent token)) o s).
Proof. split; [apply deref_store_other | apply contract_store]. Qed.

Ltac frame_build :=
  match goal with
  | |- context [createTransactionConfig ?c ?x ?m ?p ?w ?s] =>
      let o := fresh "o" in
      let Ho := fresh "Ho" in
      destruct (createTransactionConfig_state c x m p w s) as [o Ho];
      destruct (createTransactionConfig c x m p w s) as [[[?|?] ?] ?];
      cbn [fst snd] in Ho; subst
  end;
  cbv zeta;
  repeat match goal with
         | |- context [if truthy ?v then _ else _] => destruct (truthy v)
         | |- context [match read ?c ?o with _ => _ end] => destruct (read c o)
         end;
  cbn [fst snd]; apply framed_store.

Lemma operations_framed_record token client method props s :
  framed token s (processWrite token client method (VObj props) s).1.2
  ∧ framed token s (sendTransaction token client (VObj props) s).1.2
  ∧ framed token s (readTransaction token client (VObj props) s).1.2
  ∧ framed token s (processRead token client method (VObj props) s).1.2.
Proof.
  rewrite processWrite_record, sendTransaction_record, readTransaction_record,
    processRead_state.
  split_and!; [frame_build..|apply framed_store].
Qed.

Lemma operations_framed token client method option s :
  framed token s (processWrite token client method option s).1.2
  ∧ framed token s (sendTransaction token client option s).1.2
  ∧ framed token s (readTransaction token client option s).1.2
  ∧ framed token s (processRead token client method option s).1.2.
Proof.
  destruct (option_cases option) as [->|[->|[[props ->]|[Hdef Hbad]]]].
  - apply (operations_framed_record token client method ∅ s).
  - destruct (operations_on_null token client method s) as (-> & -> & -> & ->).
    split_and!; frame_build.
  - apply operations_framed_record.
  - destruct (operations_throw_on_invalid token client method option s Hdef Hbad)
      as (-> & -> & -> & ->).
    split_and!; apply framed_refl.
Qed.

(** X17. None of the four public operations, whatever the option and
    whatever the outcome, changes the default record of the other chain side
    or the memoised contract: all they write is the default record of the
    token's own side. *)
Theorem operations_frame_other_side token client method option s :
  (deref (defaultConfigOf (negb (isParent token)))
     (processWrite token client method option s).1.2
   = deref (defaultConfigOf (negb (isParent token))) s
   ∧ contract_ (processWrite token client method option s).1.2 = contract_ s)
  ∧ (deref (defaultConfigOf (negb (isParent token)))
       (sendTransaction token client option s).1.2
     = deref (defaultConfigOf (negb (isParent token))) s
     ∧ contract_ (sendTransaction token client option s).1.2 = contract_ s)
  ∧ (deref (defaultConfigOf (negb (isParent token)))
       (readTransaction token client option s).1.2
     = deref (defaultConfigOf (negb (isParent token))) s
     ∧ contract_ (readTransaction token client option s).1.2 = contract_ s)
  ∧ (deref (defaultConfigOf (negb (isParent token)))
       (processRead token client method option s).1.2
     = deref (defaultConfigOf (negb (isParent token))) s
     ∧ contract_ (processRead token client method option s).1.2 = contract_ s).
Proof. apply operations_framed. Qed.

(** ** The lazy-loader, the transfers and the side guards *)

Lemma getContract_cases token client s :
  match getContract token client s with
  | (out, s', t) =>
      parentDefaultConfig s' = parentDefaultConfig s
      ∧ childDefaultConfig s' = childDefaultConfig s
      ∧ (∀ e, out ≠ Throws e)
      ∧ (∀ e, out = Rejected e →
           s' = s ∧ contract_ s = None
           ∧ t = [GetABI (name token) (bridgeType token)]
           ∧ ∃ r, e = Upstream r
                  ∧ getABI client (name token) (bridgeType token) = Rejects r)
      ∧ (∀ contract, out = Fulfilled contract → contract_ s' = Some contract)
  end.
Proof.
  destruct (contract_ s) as [memo|] eqn:Hmemo.
  - rewrite (getContract_memoized _ _ _ _ Hmemo).
    split_and!; try done. by intros contract [= <-].
  - rewrite (getContract_first _ _ _ Hmemo).
    destruct (getABI client (name token) (bridgeType token)) as [abi|r] eqn:Habi;
      cbv zeta; split_and!; try done.
    + by intros contract [= <-].
    + intros e [= <-]. split_and!; try done. by exists r.
Qed.


(** X18. [getContract()] never throws and never touches the default records.
    A call that is rejected found no memo, issued the ABI fetch and nothing
    else, was rejected with the reason of that fetch, and left the state as
    it was, so the next call fetches again.  A call that is fulfilled leaves
    the contract it returns in the memo. *)
Theorem getContract_failed_fetch_not_memoized token client s :
  match getContract token client s with
  | (out, s', t) =>
      parentDefaultConfig s' = parentDefaultConfig s
      ∧ childDefaultConfig s' = childDefaultConfig s
      ∧ (∀ e, out ≠ Throws e)
      ∧ (∀ e, out = Rejected e →
           s' = s ∧ contract_ s = None
           ∧ t = [GetABI (name token) (bridgeType token)]
           ∧ ∃ r, e = Upstream r
                  ∧ getABI client (name token) (bridgeType token) = Rejects r)
      ∧ (∀ contract, out = Fulfilled contract → contract_ s' = Some contract)
  end.
Proof. apply getContract_cases. Qed.

Lemma transferERC20_run token client methodOf toHex to amount option s :
  transferERC20 token client methodOf toHex to amount option s =
  match getContract token client s with
  | (Fulfilled contract, s1, t1) =>
      match processWrite token client
              (methodOf contract "transfer" [to; toHex amount]) option s1 with
      | (Throws e, s2, t2) | (Rejected e, s2, t2) =>
          (Rejected e, s2,
           (Base <$> t1)
           ++ ContractMethod (contract_instance contract) "transfer"
                [to; toHex amount] :: (Base <$> t2))
      | (Fulfilled r, s2, t2) =>
          (Fulfilled r, s2,
           (Base <$> t1)
           ++ ContractMethod (contract_instance contract) "transfer"
                [to; toHex amount] :: (Base <$> t2))
      end
  | (Rejected e, s1, t1) => (Rejected e, s1, Base <$> t1)
  | (Throws e, s1, t1) => (Throws e, s1, Base <$> t1)
  end.
Proof.
  unfold transferERC20, andThen, contract_method, lift.
  destruct (getContract token client s) as [[[e|e|contract] s1] t1];
    try reflexivity.
  destruct (processWrite _ _ _ _ s1) as [[[e|e|r] s2] t2]; reflexivity.
Qed.

Lemma transferERC721_run token client methodOf from to tokenId option s :
  transferERC721 token client methodOf from to tokenId option s =
  match getContract token client s with
  | (Fulfilled contract, s1, t1) =>
      match processWrite token client
              (methodOf contract "transferFrom" [from; to; tokenId]) option s1 with
      | (Throws e, s2, t2) | (Rejected e, s2, t2) =>
          (Rejected e, s2,
           (Base <$> t1)
           ++ ContractMethod (contract_instance contract) "transferFrom"
                [from; to; tokenId] :: (Base <$> t2))
      | (Fulfilled r, s2, t2) =>
          (Fulfilled r, s2,
           (Base <$> t1)
           ++ ContractMethod (contract_instance contract) "transferFrom"
                [from; to; tokenId] :: (Base <$> t2))
      end
  | (Rejected e, s1, t1) => (Rejected e, s1, Base <$> t1)
  | (Throws e, s1, t1) => (Throws e, s1, Base <$> t1)
  end.
Proof.
  unfold transferERC721, andThen, contract_method, lift.
  destruct (getContract token client s) as [[[e|e|contract] s1] t1];
    try reflexivity.
  destruct (processWrite _ _ _ _ s1) as [[[e|e|r] s2] t2]; reflexivity.
Qed.




(** X20. When no contract is memoised and the ABI fetch is rejected, a
    transfer is rejected with the reason of the fetch and does nothing else:
    the state is unchanged, no method handle is built, no build is started
    and nothing is sent, whatever the option. *)
Theorem transfers_stop_at_failed_fetch token client methodOf toHex
    from to amount tokenId option s r :
  contract_ s = None →
  getABI client (name token) (bridgeType token) = Rejects r →
  transferERC20 token client methodOf toHex to amount option s
  = (Rejected (Upstream r), s, [Base (GetABI (name token) (bridgeType token))])
  ∧ transferERC721 token client methodOf from to tokenId option s
    = (Rejected (Upstream r), s, [Base (GetABI (name token) (bridgeType token))]).
Proof.
  intros Hmemo Habi. rewrite transferERC20_run, transferERC721_run.
  by rewrite (getContract_first _ _ _ Hmemo), Habi.
Qed.

Lemma transfers_stop_at_failed_fetch_witness :
  (contract_ (stateWith ∅ ∅) = None
   ∧ getABI stubWeb3Down (name (tokenOn true)) (bridgeType (tokenOn true))
     = Rejects (VStr "timeout"))
  ∧ transferERC20 (tokenOn true) stubWeb3Down stubMethodOf (λ v, v)
      (VStr "0xB") (VNum 100) VUndefined (stateWith ∅ ∅)
    = (Rejected (Upstream (VStr "timeout")), stateWith ∅ ∅,
       [Base (GetABI (name (tokenOn true)) (bridgeType (tokenOn true)))]).
Proof.
  split; [split; reflexivity|].
  exact (proj1 (transfers_stop_at_failed_fetch (tokenOn true) stubWeb3Down
                  stubMethodOf (λ v, v) (VStr "0xA") (VStr "0xB") (VNum 100)
                  (VStr "1") VUndefined (stateWith ∅ ∅) (VStr "timeout")
                  eq_refl eq_refl)).
Defined.

Lemma baseEvents_app t1 t2 : baseEvents (t1 ++ t2) = baseEvents t1 ++ baseEvents t2.
Proof. apply flat_map_app. Qed.

Lemma baseEvents_lift t : baseEvents (Base <$> t) = t.
Proof. induction t as [|ev t IH]; [reflexivity|]. simpl. by f_equal. Qed.

Lemma getContract_no_write token client s :
  List.filter isMethodWrite (getContract token client s).2 = [].
Proof.
  destruct (contract_ s) as [memo|] eqn:Hmemo.
  - by rewrite (getContract_memoized _ _ _ _ Hmemo).
  - rewrite (getContract_first _ _ _ Hmemo). by destruct (getABI _ _ _).
Qed.

(** X21. A transfer that is fulfilled has built its method handle on the
    contract that is memoised afterwards, under the name ["transfer"] and with
    the recipient and the converted amount as arguments; and it is fulfilled
    either with a write result, after exactly one [method.write] on the config
    left in the default record of the token's side, or otherwise after no
    [method.write] at all. *)
Theorem fulfilled_transferERC20 token client methodOf toHex to amount option s r s' t :
  transferERC20 token client methodOf toHex to amount option s = (Fulfilled r, s', t) →
  ∃ contract,
    contract_ s' = Some contract
    ∧ In (ContractMethod (contract_instance contract) "transfer" [to; toHex amount]) t
    ∧ match r with
      | RWrite v =>
          List.filter isMethodWrite (baseEvents t)
          = [MethodWrite (deref (defaultConfigOf (isParent token)) s')]
          ∧ v = method_write (methodOf contract "transfer" [to; toHex amount])
                  (deref (defaultConfigOf (isParent token)) s')
      | _ => List.filter isMethodWrite (baseEvents t) = []
      end.
Proof.
  rewrite transferERC20_run.
  pose proof (getContract_cases token client s) as Hload.
  pose proof (getContract_no_write token client s) as Hnw.
  destruct (getContract token client s) as [[[e|e|contract] s1] t1]; try done.
  destruct Hload as (_ & _ & _ & _ & Hmemo). specialize (Hmemo _ eq_refl).
  cbn [snd] in Hnw.
  pose proof (processWrite_write_cases token client
                (methodOf contract "transfer" [to; toHex amount]) option s1) as Hw.
  destruct (operations_framed token client
              (methodOf contract "transfer" [to; toHex amount]) option s1)
    as ((_ & Hkeep) & _).
  destruct (processWrite _ _ _ _ s1) as [[[e|e|r'] s2] t2]; try done.
  cbn [fst snd] in Hkeep. intros [= <- <- <-].
  exists contract. split_and!.
  - by rewrite Hkeep.
  - apply in_or_app. right. by left.
  - rewrite baseEvents_app. cbn [baseEvents flat_map app].
    fold (baseEvents (Base <$> t2)). rewrite !baseEvents_lift.
    rewrite List.filter_app, Hnw. simpl.
    destruct Hw as (_ & [[Hnone Hnot]|[Hone Hout]]).
    + rewrite Hnone. destruct r'; try done. by destruct (Hnot methodResult).
    + rewrite Hone. injection Hout as ->. done.
Qed.

Lemma fulfilled_transferERC20_witness :
  transferERC20 (tokenOn false) (stubWeb3 false 3) stubMethodOf (λ v, v)
    (VStr "0xB") (VNum 100) (VObj {["from" := VStr "0xA"]}) (stateWith ∅ ∅)
  = (Fulfilled (RWrite (VStr "0xhash")),
     {| parentDefaultConfig := ∅;
        childDefaultConfig :=
          <["gasPrice" := VNum 7]> (<["chainId" := VNum 137]>
            (<["nonce" := VNum 5]> (<["gasLimit" := VNum 50000]>
               {["from" := VStr "0xA"]})));
        contract_ := Some {| contract_instance := 3;
                             contract_address := VStr "0xToken" |} |},
     [Base (GetABI (VStr "ChildERC20") (VStr "pos"));
      Base (GetContract false (VStr "0xToken") (VStr "abi"));
      ContractMethod 3 "transfer" [VStr "0xB"; VNum 100];
      Base (Log "process write"); Base (Log "txConfig");
      Base (IsEIP1559Supported false);
      Base (MethodEstimateGas
              (<["from" := VStr "0xA"]> (<["value" := VUndefined]> ∅)));
      Base (GetGasPrice false);
      Base (GetTransactionCount false (VStr "0xA") (VStr "pending"));
      Base (GetChainId false); Base (Log "options filled");
      Base (Log "process write config");
      Base (MethodWrite
              (<["gasPrice" := VNum 7]> (<["chainId" := VNum 137]>
                 (<["nonce" := VNum 5]> (<["gasLimit" := VNum 50000]>
                    {["from" := VStr "0xA"]})))))])
  ∧ ∃ contract,
      Some {| contract_instance := 3; contract_address := VStr "0xToken" |}
      = Some contract.
Proof.
  assert (transferERC20 (tokenOn false) (stubWeb3 false 3) stubMethodOf (λ v, v)
            (VStr "0xB") (VNum 100) (VObj {["from" := VStr "0xA"]}) (stateWith ∅ ∅)
          = (Fulfilled (RWrite (VStr "0xhash")),
             {| parentDefaultConfig := ∅;
                childDefaultConfig :=
                  <["gasPrice" := VNum 7]> (<["chainId" := VNum 137]>
                    (<["nonce" := VNum 5]> (<["gasLimit" := VNum 50000]>
                       {["from" := VStr "0xA"]})));
                contract_ := Some {| contract_instance := 3;
                                     contract_address := VStr "0xToken" |} |},
             [Base (GetABI (VStr "ChildERC20") (VStr "pos"));
              Base (GetContract false (VStr "0xToken") (VStr "abi"));
              ContractMethod 3 "transfer" [VStr "0xB"; VNum 100];
              Base (Log "process write"); Base (Log "txConfig");
              Base (IsEIP1559Supported false);
              Base (MethodEstimateGas
                      (<["from" := VStr "0xA"]> (<["value" := VUndefined]> ∅)));
              Base (GetGasPrice false);
              Base (GetTransactionCount false (VStr "0xA") (VStr "pending"));
              Base (GetChainId false); Base (Log "options filled");
              Base (Log "process write config");
              Base (MethodWrite
                      (<["gasPrice" := VNum 7]> (<["chainId" := VNum 137]>
                         (<["nonce" := VNum 5]> (<["gasLimit" := VNum 50000]>
                            {["from" := VStr "0xA"]})))))])) as Hrun
    by (vm_compute; reflexivity).
  split; [exact Hrun|].
  destruct (fulfilled_transferERC20 _ _ _ _ _ _ _ _ _ _ _ Hrun)
    as (contract & Hmemo & _).
  exists contract. exact Hmemo.
Defined.

(** X22. For every token exactly one of the two side guards lets the caller
    through: [checkForRoot] passes on a parent token and raises on a child
    token, [checkForChild] the other way round.  The error of [checkForRoot]
    names the method it was given; the error of [checkForChild] names
    ["withdrawStart"] whatever method it was given. *)
Theorem side_guards_are_exclusive token methodName1 methodName2 :
  (checkForRoot token methodName1 = Passes ↔ isParent token = true)
  ∧ (checkForChild token methodName2 = Passes ↔ isParent token = false)
  ∧ (checkForRoot token methodName1 = Passes
     ↔ checkForChild token methodName2 ≠ Passes)
  ∧ (∀ e, checkForRoot token methodName1 = Raises e →
          e = AllowedOnRoot methodName1)
  ∧ (∀ e, checkForChild token methodName2 = Raises e →
          e = AllowedOnChild (VStr "withdrawStart")).
Proof.
  unfold checkForRoot, checkForChild.
  destruct (isParent token); simpl; split_and!;
    try (split; (done || congruence));
    intros e; congruence.
Qed.
